(** * ModeOpt: trajectory optimisation over multimodal GP dynamics

    A shallow embedding of the control flow, state effects and shape
    bookkeeping of the [modeopt] package, with the properties of its
    natural-language specification stated and settled against it.

    Conventions of the embedding:
    - a Python call that may raise is a value of [result]; the exception
      classes the sources raise are the constructors of [exn];
    - a rank-2 tensor is the list of its rows; scalars are exact integers
      (rounding of the floating-point arithmetic is outside the model);
    - Python objects are attribute stores ([gmap string _]); methods thread
      the store explicitly, and keep the mutations done before a raise;
    - numerical kernels that live in GPflow / TensorFlow are operations of a
      backend record, fallible like every other call. *)

From Stdlib Require Import ZArith List Lia Bool.
From stdpp Require Import base option list gmap strings.

Open Scope Z_scope.

(** ** Exceptions and fallible calls *)

Module Py.

Inductive exn : Type :=
| NameError
| AttributeError
| AssertionError
| IndexError
| TypeError
| ValueError
| NotImplementedError
| InvalidArgumentError
| RecursionError.

#[global] Instance exn_eq_dec : EqDecision exn.
Proof. solve_decision. Defined.

Inductive result (A : Type) : Type :=
| Ok (a : A)
| Raise (e : exn).

Arguments Ok {A} a.
Arguments Raise {A} e.

#[global] Instance result_ret : MRet result := fun _ a => Ok a.

#[global] Instance result_bind : MBind result := fun _ _ f m =>
  match m with
  | Ok a => f a
  | Raise e => Raise e
  end.

#[global] Instance result_fmap : FMap result := fun _ _ f m =>
  match m with
  | Ok a => Ok (f a)
  | Raise e => Raise e
  end.

Definition returns {A} (m : result A) : Prop := exists a, m = Ok a.
Definition raises {A} (m : result A) : Prop := exists e, m = Raise e.

(** [for t in ts: acc = body(t, acc)], leaving at the first raise. *)
Fixpoint for_each {A S : Type} (ts : list A) (body : A -> S -> result S)
         (acc : S) : result S :=
  match ts with
  | [] => Ok acc
  | t :: ts' => acc' ← body t acc; for_each ts' body acc'
  end.

(** [range(n)] *)
Definition range (n : nat) : list nat := seq 0 n.

(** [l[i]] on a Python list: negative indices count from the end. *)
Definition list_index {A} (l : list A) (i : Z) : result A :=
  let n := Z.of_nat (length l) in
  let j := if i <? 0 then n + i else i in
  if (0 <=? j) && (j <? n) then
    match l !! Z.to_nat j with
    | Some x => Ok x
    | None => Raise IndexError
    end
  else Raise IndexError.

End Py.
Import Py.

(** ** Rank-2 tensors *)

Module Tensor.

Abbreviation row := (list Z).
Abbreviation tensor2 := (list (list Z)).

(** [x.shape[1]] *)
Definition shape1 (x : tensor2) : nat :=
  match x with
  | [] => 0%nat
  | r :: _ => length r
  end.

(** [tf.zeros((n, m))] *)
Definition zeros (n m : nat) : tensor2 := replicate n (replicate m 0).

(** [x[-1:, :]] *)
Definition last_rows (x : tensor2) : tensor2 := drop (length x - 1) x.

(** [x[:-1, :]] *)
Definition but_last_rows (x : tensor2) : tensor2 := take (length x - 1) x.

(** [x[t : t + 1, :]] *)
Definition row_slice (x : tensor2) (t : nat) : tensor2 := take 1 (drop t x).

(** every row has [d] columns *)
Definition width (d : nat) (x : tensor2) : Prop :=
  Forall (fun r => length r = d) x.

Definition widthb (d : nat) (x : tensor2) : bool :=
  forallb (fun r => Nat.eqb (length r) d) x.

(** [tf.concat([x, y], 0)]: the column counts have to agree. *)
Definition concat0 (x y : tensor2) : result tensor2 :=
  match x with
  | [] => Ok y
  | r :: _ =>
      if widthb (length r) x && widthb (length r) y
      then Ok (x ++ y)
      else Raise InvalidArgumentError
  end.

(** [tf.reduce_sum] of a vector *)
Definition reduce_sum (v : list Z) : Z := foldr Z.add 0 v.

(** [tf.reduce_sum] of a matrix *)
Definition reduce_sum2 (x : tensor2) : Z := reduce_sum (map reduce_sum x).

(** [tf.concat([x, y], -1)]: the row counts have to agree. *)
Definition concat1 (x y : tensor2) : result tensor2 :=
  if Nat.eqb (length x) (length y)
  then Ok (zip_with app x y)
  else Raise InvalidArgumentError.

(** [tf.ones(x.shape) * c] *)
Definition filled_like (x : tensor2) (c : Z) : tensor2 :=
  map (map (fun _ => 1 * c)) x.

End Tensor.
Import Tensor.

(** ** modeopt/rollouts.py *)

Module Rollouts.

(** A one-step transition [dynamics(state_mean, control_mean, state_var,
    control_var)]; [control_var] may be [None]. *)
Definition Dynamics : Type :=
  tensor2 -> tensor2 -> tensor2 -> option tensor2 -> result (tensor2 * tensor2).

Definition default_start_var (start_state : tensor2)
           (start_state_var : option tensor2) : tensor2 :=
  match start_state_var with
  | None => zeros 1 (shape1 start_state)
  | Some v => v
  end.

Definition rollout_controls_in_dynamics (dynamics : Dynamics)
           (start_state control_means : tensor2)
           (start_state_var control_vars : option tensor2)
  : result (tensor2 * tensor2) :=
  let horizon := length control_means in
  let start_state_var := default_start_var start_state start_state_var in
  for_each (range horizon)
    (fun t '(state_means, state_vars) =>
       let control_mean := row_slice control_means t in
       let control_var :=
         match control_vars with
         | Some cv => Some (row_slice cv t)
         | None => None
         end in
       '(next_state_mean, next_state_var) ←
         dynamics (last_rows state_means) control_mean
                  (last_rows state_vars) control_var;
       state_means' ← concat0 state_means next_state_mean;
       state_vars' ← concat0 state_vars next_state_var;
       Ok (state_means', state_vars'))
    (start_state, start_state_var).

(** What the rollout needs of a policy: [num_time_steps] and [policy(t)]. *)
Record StepPolicy : Type := {
  num_time_steps : nat;
  at_step : nat -> result (tensor2 * option tensor2)
}.

Definition rollout_policy_in_dynamics (policy : StepPolicy)
           (dynamics : Dynamics) (start_state : tensor2)
           (start_state_var : option tensor2)
  : result (tensor2 * tensor2) :=
  let start_state_var := default_start_var start_state start_state_var in
  for_each (range (num_time_steps policy))
    (fun t '(state_means, state_vars) =>
       '(control_mean, control_var) ← at_step policy t;
       '(next_state_mean, next_state_var) ←
         dynamics (last_rows state_means) control_mean
                  (last_rows state_vars) control_var;
       state_means' ← concat0 state_means next_state_mean;
       state_vars' ← concat0 state_vars next_state_var;
       Ok (state_means', state_vars'))
    (start_state, start_state_var).

End Rollouts.

(** ** modeopt/trajectories/base.py *)

Module Trajectories.

(** What a call of a trajectory object hands back: the bare controls, or
    the tuple [(controls, None)]. *)
Inductive call_value : Type :=
| Controls (c : tensor2)
| ControlsAndVar (c : tensor2) (v : option tensor2).

(** [controls] is an abstract property: the base class raises
    [NotImplementedError], a subclass returns its control sequence. *)
Record BaseTrajectory : Type := {
  controls : result tensor2
}.

Definition abstract_trajectory : BaseTrajectory :=
  {| controls := Raise NotImplementedError |}.

(** [__call__(self, timestep=None, variance=False)] *)
Definition __call__ (self : BaseTrajectory) (timestep : option Z)
           (variance : bool) : result call_value :=
  if variance then
    c ← controls self; Ok (ControlsAndVar c None)
  else
    c ← controls self; Ok (Controls c).

(** [call(self, input)] *)
Definition call (self : BaseTrajectory) (input : tensor2) : result tensor2 :=
  controls self.

Definition horizon (self : BaseTrajectory) : result nat :=
  c ← controls self; Ok (length c).

Definition control_dim (self : BaseTrajectory) : result nat :=
  c ← controls self; Ok (shape1 c).

(** The policy capability in the words of the specification: called at
    index [t], the pair (control mean, control variance) of that step. *)
Definition is_step_pair (c : tensor2) (t : nat) (v : call_value) : Prop :=
  exists var, v = ControlsAndVar (row_slice c t) var.

End Trajectories.

(** ** Variables, modules and the external optimizer *)

Module Vars.

(** A [tf.Variable]: its current value and its [trainable] flag. *)
Record TfVariable : Type := {
  value : Z;
  trainable : bool
}.

Abbreviation store := (gmap positive TfVariable).

Definition is_trainable (st : store) (v : positive) : bool :=
  match st !! v with
  | Some x => trainable x
  | None => false
  end.

Definition value_of (st : store) (v : positive) : option Z :=
  value <$> st !! v.

(** [module.trainable_variables] *)
Definition trainable_variables (variables : list positive) (st : store)
  : list positive :=
  filter (fun v => is_trainable st v = true) variables.

Definition set_flag (flag : bool) (x : TfVariable) : TfVariable :=
  {| value := value x; trainable := flag |}.

(** [gpf.set_trainable(module, flag)] *)
Definition set_trainable (variables : list positive) (flag : bool)
           (st : store) : store :=
  foldr (fun v acc => alter (set_flag flag) v acc) st variables.

Definition set_value (z : Z) (x : TfVariable) : TfVariable :=
  {| value := z; trainable := trainable x |}.

(** [variable.assign(value)] over a list of variables *)
Fixpoint assign (variables : list positive) (values : list Z) (st : store)
  : store :=
  match variables, values with
  | v :: vs, z :: zs => alter (set_value z) v (assign vs zs st)
  | _, _ => st
  end.

Definition pack (variables : list positive) (st : store) : list Z :=
  omap (value_of st) variables.

Inductive callback_action : Type :=
| MonitorStep (step : nat)
| ManagerSave
| PrintValues.

Definition Callback : Type := nat -> list callback_action.

Record Options : Type := {
  disp : bool;
  maxiter : nat
}.

(** The external optimizer, [optimiser.minimize(closure, variables,
    method=, constraints=, step_callback=, options=)], with result type
    [R]. *)
Definition ExternalOptimizer (Constraint R : Type) : Type :=
  (store -> result Z) -> list positive -> string -> list Constraint ->
  option Callback -> Options -> store -> R * store.


(** GPflow's [Scipy]: pack the variables, run a solver on the packed
    vector (each evaluation assigns the candidate, then calls the
    closure), assign the solution back. *)
Record ScipyResult : Type := {
  solution : list Z;
  nit : nat;
  callback_log : list callback_action
}.

Definition Solver : Type := (list Z -> result Z) -> list Z -> Options -> list Z * nat.

Definition scipy {Constraint} (solver : Solver)
  : ExternalOptimizer Constraint ScipyResult :=
  fun closure vs method cs cb o st =>
    let x0 := pack vs st in
    let func := fun xs => closure (assign vs xs st) in
    let '(xs, n) := solver func x0 o in
    let lg := match cb with
              | Some f => flat_map f (range n)
              | None => []
              end in
    ({| solution := xs; nit := n; callback_log := lg |}, assign vs xs st).


End Vars.

(** ** modeopt/trajectory_optimisers/variational.py and explorative.py *)

Module Optimisers.
Import Rollouts Vars.

(** The policy as the optimisers use it: [policy(t)], [policy()],
    [policy.entropy()]. *)
Record Policy : Type := {
  steps : StepPolicy;
  whole : result (tensor2 * option tensor2);
  entropy : result Z;
  variational_dist : result (tensor2 * tensor2)
}.

(** The dynamics as the optimisers use it: the object is called for a
    transition and asked for [mode_variational_expectation]. *)
Record GPDynamics : Type := {
  transition : Dynamics;
  mode_variational_expectation :
    tensor2 -> tensor2 -> tensor2 -> option tensor2 -> result Z
}.

Section WithCosts.
Context {CostFn Constraint : Type}.

(** The signature of the cost evaluators of [modeopt.cost_functions]
    ([expected_quadratic_costs(cost_fn=, terminal_cost_fn=,
    state_means=, state_vars=, policy=)]), which returns
    [(expected_integral_costs, expected_terminal_cost)]. *)
Definition CostEvaluator : Type :=
  CostFn -> CostFn -> tensor2 -> tensor2 -> Policy -> result (list Z * Z).

(** A name of the module's global namespace is bound to a cost
    evaluator or to something that is not one. *)
Inductive global_value : Type :=
| Evaluator (f : CostEvaluator)
| OtherObject.

(** The names bound at module level in variational.py: its imports,
    its two type aliases and its four classes. *)
Definition variational_globals (expected_quadratic_costs : CostEvaluator)
  : gmap string global_value :=
  list_to_map
    [ ("typing", OtherObject); ("dataclass", OtherObject);
      ("Callable", OtherObject); ("gpf", OtherObject);
      ("ttf", OtherObject); ("tf", OtherObject);
      ("GPDynamics", OtherObject);
      ("expected_quadratic_costs", Evaluator expected_quadratic_costs);
      ("VariationalPolicy", OtherObject);
      ("VariationalGaussianPolicy", OtherObject);
      ("DeterministicPolicy", OtherObject);
      ("rollout_policy_in_dynamics", OtherObject);
      ("TrajectoryOptimiser", OtherObject);
      ("axes", OtherObject); ("Batch", OtherObject);
      ("StateDim", OtherObject); ("ControlDim", OtherObject);
      ("VariationalTrajectoryOptimiserTrainingSpec", OtherObject);
      ("ModeVariationalTrajectoryOptimiserTrainingSpec", OtherObject);
      ("VariationalTrajectoryOptimiser", OtherObject);
      ("ModeVariationalTrajectoryOptimiser", OtherObject) ].

(** Looking a global name up in order to call it as a cost evaluator. *)
Definition resolve (G : gmap string global_value) (name : string)
  : result CostEvaluator :=
  match G !! name with
  | None => Raise NameError
  | Some (Evaluator f) => Ok f
  | Some OtherObject => Raise TypeError
  end.

(** The two classes of variational.py; the second inherits
    [build_training_loss] and [optimise] and overrides [elbo]. *)
Inductive variant : Type :=
| Variational
| ModeVariational.

Record TrajectoryOptimiser : Type := {
  policy : Policy;
  dynamics : GPDynamics;
  cost_fn : CostFn;
  terminal_cost_fn : CostFn
}.

(** [VariationalTrajectoryOptimiser.elbo] *)
Definition variational_elbo (G : gmap string global_value)
           (self : TrajectoryOptimiser) (start_state : tensor2)
           (start_state_var : option tensor2) : result Z :=
  entropy ← entropy (policy self);
  '(state_means, state_vars) ←
    rollout_policy_in_dynamics (steps (policy self))
      (transition (dynamics self)) start_state start_state_var;
  expected_costs ← resolve G "expected_costs";
  '(expected_integral_costs, expected_terminal_cost) ←
    expected_costs (cost_fn self) (terminal_cost_fn self)
      state_means state_vars (policy self);
  Ok (- expected_terminal_cost - reduce_sum expected_integral_costs
      - entropy).

(** [ModeVariationalTrajectoryOptimiser.elbo] *)
Definition mode_variational_elbo (G : gmap string global_value)
           (self : TrajectoryOptimiser) (start_state : tensor2)
           (start_state_var : option tensor2) : result Z :=
  entropy ← entropy (policy self);
  '(state_means, state_vars) ←
    rollout_policy_in_dynamics (steps (policy self))
      (transition (dynamics self)) start_state start_state_var;
  expected_quadratic_costs ← resolve G "expected_quadratic_costs";
  '(expected_integral_costs, expected_terminal_cost) ←
    expected_quadratic_costs (cost_fn self) (terminal_cost_fn self)
      state_means state_vars (policy self);
  '(control_means, control_vars) ← whole (policy self);
  mode_var_exp ←
    mode_variational_expectation (dynamics self)
      (but_last_rows state_means) control_means
      (but_last_rows state_vars) control_vars;
  Ok (- mode_var_exp - expected_terminal_cost
      - reduce_sum expected_integral_costs + entropy).

(** [self.elbo], by the class of [self] *)
Definition elbo (k : variant) :=
  match k with
  | Variational => variational_elbo
  | ModeVariational => mode_variational_elbo
  end.

(** [build_training_loss]: the closure [training_loss]; wrapping it in
    [tf.function] does not change what it returns. *)
Definition build_training_loss (k : variant)
           (G : gmap string global_value) (self : TrajectoryOptimiser)
           (start_state : tensor2) (start_state_var : option tensor2)
           (compile : bool) : unit -> result Z :=
  let training_loss := fun _ : unit =>
    v ← elbo k G self start_state start_state_var; Ok (- v) in
  if compile then training_loss else training_loss.

(** The objective in the words of the specification. *)
Definition spec_elbo (terminal_cost : Z) (running_costs : list Z)
           (policy_entropy : Z) : Z :=
  - terminal_cost - reduce_sum running_costs - policy_entropy.

Definition spec_mode_elbo (terminal_cost : Z) (running_costs : list Z)
           (policy_entropy mode_var_exp : Z) : Z :=
  spec_elbo terminal_cost running_costs policy_entropy + mode_var_exp.

End WithCosts.

End Optimisers.

(** ** The [optimise] methods *)

Module Optimise.
Import Rollouts Vars Optimisers.

(** The fields the three training-spec dataclasses share. *)
Record CommonSpec : Type := {
  max_iterations : nat;
  method : string;
  spec_disp : bool;
  monitor : option (nat -> list callback_action);
  manager : option (list callback_action)
}.

(** The fields only the mode-variational and the explorative one have. *)
Record ModeSpec : Type := {
  mode_chance_constraint_lower : option Z;
  compile_mode_constraint_fn : bool;
  compile_loss_fn : bool
}.

Inductive training_spec : Type :=
| VariationalTrajectoryOptimiserTrainingSpec (c : CommonSpec)
| ModeVariationalTrajectoryOptimiserTrainingSpec (c : CommonSpec) (m : ModeSpec)
| ExplorativeTrajectoryOptimiserTrainingSpec (c : CommonSpec) (m : ModeSpec).

Definition common (s : training_spec) : CommonSpec :=
  match s with
  | VariationalTrajectoryOptimiserTrainingSpec c => c
  | ModeVariationalTrajectoryOptimiserTrainingSpec c _ => c
  | ExplorativeTrajectoryOptimiserTrainingSpec c _ => c
  end.

(** [training_spec.compile_loss_fn] *)
Definition get_compile_loss_fn (s : training_spec) : result bool :=
  match s with
  | VariationalTrajectoryOptimiserTrainingSpec _ => Raise AttributeError
  | ModeVariationalTrajectoryOptimiserTrainingSpec _ m => Ok (compile_loss_fn m)
  | ExplorativeTrajectoryOptimiserTrainingSpec _ m => Ok (compile_loss_fn m)
  end.

(** The step callback; [verbose] is the variational one, whose first
    branch also prints the values and the variables. *)
Definition make_callback (verbose : bool) (s : training_spec)
  : option Callback :=
  match monitor (common s), manager (common s) with
  | Some mon, Some save =>
      Some (fun step =>
              mon step ++ save ++ (if verbose then [PrintValues] else []))
  | Some mon, None => Some mon
  | None, Some save => Some (fun _ => save)
  | None, None => None
  end.

Section WithCosts.
Context {CostFn Constraint R : Type}.

(** A variational optimiser together with the variables its policy and
    its dynamics own; what the policy and the dynamics compute depends
    on the current values of the variables. *)
Record VariationalOptimiser : Type := {
  policy_at : store -> Policy;
  dynamics_at : store -> GPDynamics;
  v_cost_fn : CostFn;
  v_terminal_cost_fn : CostFn;
  policy_variables : list positive;
  dynamics_variables : list positive;
  optimiser : ExternalOptimizer Constraint R
}.

Definition at_store (self : VariationalOptimiser) (st : store)
  : @TrajectoryOptimiser CostFn :=
  {| policy := policy_at self st;
     dynamics := dynamics_at self st;
     cost_fn := v_cost_fn self;
     terminal_cost_fn := v_terminal_cost_fn self |}.

(** [VariationalTrajectoryOptimiser.optimise], inherited by the mode
    variant. *)
Definition optimise (k : variant) (G : gmap string global_value)
           (self : VariationalOptimiser) (start_state : tensor2)
           (spec : training_spec) (constraints : list Constraint)
           (st : store) : result R * store :=
  let st1 := set_trainable (dynamics_variables self) false st in
  let callback := make_callback true spec in
  match get_compile_loss_fn spec with
  | Raise e => (Raise e, st1)
  | Ok compile =>
      let training_loss := fun s : store =>
        build_training_loss k G (at_store self s) start_state None
          compile tt in
      let '(optimisation_result, st2) :=
        optimiser self training_loss
          (trainable_variables (policy_variables self) st1)
          (method (common spec)) constraints callback
          {| disp := spec_disp (common spec);
             maxiter := max_iterations (common spec) |} st1 in
      (_ ← whole (policy_at self st2);
       _ ← variational_dist (policy_at self st2);
       Ok optimisation_result, st2)
  end.





End WithCosts.

End Optimise.

(** ** modeopt/dynamics/multimodal.py *)

Module MultiModal.

Section WithGP.
(** [GP] stands for a sparse variational GP of the mixture (an expert or
    the gating network) with its parameters; [Nominal] for a nominal
    dynamics callable; [Optimizer] for a [tf.optimizers.Optimizer]. *)
Context {GP Nominal Optimizer : Type}.

(** [mogpe.MixtureOfSVGPExperts], as far as the wrapper reads it. *)
Record MixtureOfSVGPExperts : Type := {
  num_experts : Z;
  experts_list : list GP;
  gating_network : GP
}.

(** [SVGPDynamics(gp, nominal_dynamics=None)] *)
Record SVGPDynamics : Type := {
  svgp : GP;
  nominal_dynamics : option Nominal
}.

Inductive value : Type :=
| VInt (z : Z)
| VModel (m : MixtureOfSVGPExperts)
| VGP (g : GP)
| VDynamics (d : SVGPDynamics)
| VOptimizer (o : Optimizer).

Inductive printed : Type :=
| PStr (s : string)
| PTensor (x : tensor2)
| PScalar (z : Z).

(** An instance and the process's standard output. *)
Record world : Type := {
  attrs : gmap string value;
  stdout : list printed
}.

(** The operations of GPflow and of [SVGPDynamics] the wrapper calls;
    each is a function of the GP (so of its parameters) and of the
    arguments. *)
Record Backend : Type := {
  predict_f : GP -> tensor2 -> bool -> result (tensor2 * tensor2);
  gp_uncertain_conditional :
    tensor2 -> tensor2 -> GP -> bool -> bool -> result (tensor2 * tensor2);
  variational_expectations :
    GP -> tensor2 -> tensor2 -> tensor2 -> result tensor2;
  dynamics_call :
    SVGPDynamics -> tensor2 -> tensor2 -> option tensor2 ->
    option tensor2 -> result (tensor2 * tensor2)
}.

(** A method body: it may raise, and it may leave the world changed
    either way. *)
Definition M (A : Type) : Type := world -> result A * world.

Definition ret {A} (a : A) : M A := fun w => (Ok a, w).

Definition raise {A} (e : exn) : M A := fun w => (Raise e, w).

Definition bind {A B} (m : M A) (f : A -> M B) : M B :=
  fun w =>
    match m w with
    | (Ok a, w') => f a w'
    | (Raise e, w') => (Raise e, w')
    end.

Definition lift {A} (r : result A) : M A := fun w => (r, w).

(** [self.name], for a data attribute *)
Definition getattr (name : string) : M value :=
  fun w =>
    match attrs w !! name with
    | Some v => (Ok v, w)
    | None => (Raise AttributeError, w)
    end.

(** [self.name = v] *)
Definition setattr (name : string) (v : value) : M unit :=
  fun w => (Ok tt, {| attrs := <[name := v]> (attrs w); stdout := stdout w |}).

Definition print (p : printed) : M unit :=
  fun w => (Ok tt, {| attrs := attrs w; stdout := stdout w ++ [p] |}).

Definition as_model (v : value) : M MixtureOfSVGPExperts :=
  match v with
  | VModel m => ret m
  | _ => raise AttributeError
  end.

Definition as_gp (v : value) : M GP :=
  match v with
  | VGP g => ret g
  | _ => raise AttributeError
  end.

Definition as_int (v : value) : M Z :=
  match v with
  | VInt z => ret z
  | _ => raise TypeError
  end.

End WithGP.

Arguments MixtureOfSVGPExperts : clear implicits.
Arguments SVGPDynamics : clear implicits.
Arguments value : clear implicits.
Arguments world : clear implicits.
Arguments Backend : clear implicits.
Arguments M : clear implicits.

Notation "x <- m ;; k" := (bind m (fun x => k))
  (at level 100, m at next level, right associativity).
Notation "m ;;; k" := (bind m (fun _ => k))
  (at level 100, right associativity).

Section Methods.
Context {GP Nominal Optimizer : Type}.
Variable be : Backend GP Nominal.

Abbreviation M := (M GP Nominal Optimizer).

(** [set_desired_mode(self, desired_mode)] *)
Definition set_desired_mode (desired_mode : Z) : M unit :=
  mosvgpe <- bind (getattr "mosvgpe") as_model ;;
  (if desired_mode <? num_experts mosvgpe then ret tt
   else raise AssertionError) ;;;
  setattr "_desied_mode" (VInt desired_mode) ;;;
  mosvgpe <- bind (getattr "mosvgpe") as_model ;;
  dynamics_gp <- lift (list_index (experts_list mosvgpe) desired_mode) ;;
  setattr "_desired_mode_dynamics"
    (VDynamics {| svgp := dynamics_gp; nominal_dynamics := None |}).

(** [__init__(self, mosvgpe, desired_mode, nominal_dynamics, state_dim,
    control_dim, optimizer, num_ckpts, log_dir)] *)
Definition __init__ (mosvgpe : MixtureOfSVGPExperts GP)
           (desired_mode : Z) (nominal : Nominal)
           (state_dim control_dim : Z) (optimizer : Optimizer)
           (num_ckpts : Z) (log_dir : string) : M unit :=
  setattr "trainable_model" (VModel mosvgpe) ;;;
  set_desired_mode desired_mode ;;;
  dynamics_gp <- bind (getattr "dynamics_gp") as_gp ;;
  setattr "desired_mode_dynamics"
    (VDynamics {| svgp := dynamics_gp; nominal_dynamics := Some nominal |}) ;;;
  trainable_model <- bind (getattr "trainable_model") as_model ;;
  setattr "gating_gp" (VGP (gating_network trainable_model)) ;;;
  setattr "optimizer" (VOptimizer optimizer).

(** The [desired_mode] property *)
Definition desired_mode : M Z :=
  bind (getattr "_desied_mode") as_int.

(** [call]: [self._desired_mode_dynamics(...)]. The instance attribute
    of that name, once assigned, hides the method of the same name;
    without it the method is found, and that method calls itself. *)
Definition call (state_mean control_mean : tensor2)
           (state_var control_var : option tensor2)
  : M (tensor2 * tensor2) :=
  fun w =>
    match attrs w !! "_desired_mode_dynamics" with
    | Some (VDynamics d) =>
        (dynamics_call be d state_mean control_mean state_var control_var, w)
    | Some _ => (Raise TypeError, w)
    | None => (Raise RecursionError, w)
    end.

(** [uncertain_predict_gating] *)
Definition uncertain_predict_gating (state_mean control_mean : tensor2)
           (state_var control_var : option tensor2)
  : M (tensor2 * tensor2) :=
  input_mean <- lift (concat1 state_mean control_mean) ;;
  match state_var, control_var with
  | Some state_var, Some control_var =>
      input_var <- lift (concat1 state_var control_var) ;;
      gating_gp <- bind (getattr "gating_gp") as_gp ;;
      lift (gp_uncertain_conditional be input_mean input_var gating_gp
              false false)
  | _, _ =>
      gating_gp <- bind (getattr "gating_gp") as_gp ;;
      lift (predict_f be gating_gp input_mean false)
  end.

(** [mode_variational_expectation] *)
Definition mode_variational_expectation (state_mean control_mean : tensor2)
           (state_var control_var : option tensor2) : M Z :=
  h <- uncertain_predict_gating state_mean control_mean
         state_var control_var ;;
  let '(gating_means, gating_vars) := h in
  print (PStr "gating_means") ;;;
  print (PTensor gating_means) ;;;
  print (PTensor gating_vars) ;;;
  desired <- desired_mode ;;
  let Y := filled_like gating_means desired in
  gating_gp <- bind (getattr "gating_gp") as_gp ;;
  gating_var_exp <-
    lift (variational_expectations be gating_gp gating_means gating_vars Y) ;;
  print (PStr "gating_var_exp") ;;;
  print (PTensor gating_var_exp) ;;;
  let sum_gating_var_exp := reduce_sum2 gating_var_exp in
  print (PScalar sum_gating_var_exp) ;;;
  ret sum_gating_var_exp.

(** A freshly allocated instance: no instance attribute yet. *)
Definition fresh (out : list printed) : world GP Nominal Optimizer :=
  {| attrs := ∅; stdout := out |}.

(** [ModeOptDynamics(...)]: allocate, run [__init__], hand the instance
    back if [__init__] returned. *)
Definition construct (mosvgpe : MixtureOfSVGPExperts GP)
           (desired_mode : Z) (nominal : Nominal)
           (state_dim control_dim : Z) (optimizer : Optimizer)
           (num_ckpts : Z) (log_dir : string) (out : list printed)
  : result (world GP Nominal Optimizer) :=
  match __init__ mosvgpe desired_mode nominal state_dim control_dim
                 optimizer num_ckpts log_dir (fresh out) with
  | (Ok _, w) => Ok w
  | (Raise e, _) => Raise e
  end.

(** The instances a program can hold: a fresh one, and whatever a method
    of the class leaves behind, whether it returned or raised. *)
Inductive reachable : world GP Nominal Optimizer -> Prop :=
| reach_fresh out : reachable (fresh out)
| reach_init w m d n sd cd o k l :
    reachable w -> reachable (__init__ m d n sd cd o k l w).2
| reach_set_desired_mode w d :
    reachable w -> reachable (set_desired_mode d w).2
| reach_call w sm cm sv cv :
    reachable w -> reachable (call sm cm sv cv w).2
| reach_predict w sm cm sv cv :
    reachable w -> reachable (uncertain_predict_gating sm cm sv cv w).2
| reach_mve w sm cm sv cv :
    reachable w -> reachable (mode_variational_expectation sm cm sv cv w).2.

End Methods.

End MultiModal.

(** ** modeopt/dynamics/conditionals.py: [uncertain_conditional] *)

Module Conditionals.

Section WithBackend.
(** [T] stands for a tensor, [Kernel], [Inducing] and [MeanFn] for the
    GPflow objects of these names. *)
Context {T Kernel Inducing MeanFn : Type}.

(** [Gaussian(mu, var)] *)
Record Gaussian : Type := {
  mu : T;
  cov : T
}.

(** The second and third argument of GPflow's [expectation]. *)
Inductive expectation_arg : Type :=
| OfKernel (k : Kernel)
| OfKernelInducing (k : Kernel) (z : Inducing)
| OfMean (m : MeanFn).

(** The TensorFlow and GPflow operations of [uncertain_conditional]. *)
Record TF : Type := {
  shape0 : T -> result nat;
  unstack2 : T -> result (nat * nat);
  band_part_lower : T -> result T;
  transpose : T -> result T;
  adjoint : T -> result T;
  expectation1 : Gaussian -> expectation_arg -> result T;
  expectation2 : Gaussian -> expectation_arg -> expectation_arg -> result T;
  Kuu : Inducing -> Kernel -> result T;
  cholesky : T -> result T;
  triangular_solve : T -> T -> bool -> bool -> result T;
  tile_front : T -> nat -> result T;
  matmul : T -> T -> bool -> bool -> result T;
  zeros3 : nat -> nat -> nat -> result T;
  is_zero_mean : MeanFn -> bool;
  reshape : T -> list nat -> result T;
  einsum : string -> list T -> result T;
  trace : T -> result T;
  column : T -> result T;
  tile_columns : T -> nat -> result T;
  diag : T -> result T;
  diag_part : T -> result T;
  outer : T -> result T;
  square : T -> result T;
  add : T -> T -> result T;
  sub : T -> T -> result T
}.

Variable tf : TF.

Definition uncertain_conditional (Xnew_mu Xnew_var : T)
           (inducing_variable : Inducing) (kernel : Kernel)
           (q_mu q_sqrt : T) (mean_function : option MeanFn)
           (full_output_cov full_cov white : bool) : result (T * T) :=
  if full_cov then Raise NotImplementedError
  else
    let pXnew := {| mu := Xnew_mu; cov := Xnew_var |} in
    num_data ← shape0 tf Xnew_mu;
    '(num_ind, num_func) ← unstack2 tf q_mu;
    q_sqrt_r ← band_part_lower tf q_sqrt;
    psi1 ← expectation1 tf pXnew (OfKernelInducing kernel inducing_variable);
    eKuf ← transpose tf psi1;
    Kuu ← Kuu tf inducing_variable kernel;
    Luu ← cholesky tf Kuu;
    '(q_mu, q_sqrt_r) ←
      (if white then Ok (q_mu, q_sqrt_r)
       else
         q_mu ← triangular_solve tf Luu q_mu true false;
         Luu_tiled ← tile_front tf Luu num_func;
         q_sqrt_r ← triangular_solve tf Luu_tiled q_sqrt_r true false;
         Ok (q_mu, q_sqrt_r));
    Li_eKuf ← triangular_solve tf Luu eKuf true false;
    fmean ← matmul tf Li_eKuf q_mu true false;
    eKff ← expectation1 tf pXnew (OfKernel kernel);
    eKuffu ← expectation2 tf pXnew
               (OfKernelInducing kernel inducing_variable)
               (OfKernelInducing kernel inducing_variable);
    Luu_tiled ← tile_front tf Luu num_data;
    Li_eKuffu ← triangular_solve tf Luu_tiled eKuffu true false;
    Li_eKuffu_t ← adjoint tf Li_eKuffu;
    Li_eKuffu_Lit ← triangular_solve tf Luu_tiled Li_eKuffu_t true false;
    cov ← matmul tf q_sqrt_r q_sqrt_r false true;
    '(fmean, e_related_to_mean) ←
      (let without_mean :=
         z ← zeros3 tf num_data num_func num_func; Ok (fmean, z) in
       match mean_function with
       | None => without_mean
       | Some m =>
           if is_zero_mean tf m then without_mean
           else
             e_mean ← expectation1 tf pXnew (OfMean m);
             fmean ← add tf fmean e_mean;
             e_mean_mean ← expectation2 tf pXnew (OfMean m) (OfMean m);
             Lit_q_mu ← triangular_solve tf Luu q_mu true true;
             e_mean_Kuf ← expectation2 tf pXnew (OfMean m)
                            (OfKernelInducing kernel inducing_variable);
             e_mean_Kuf ← reshape tf e_mean_Kuf [num_data; num_func; num_ind];
             e_fmean_mean ← einsum tf "nqm,mz->nqz" [e_mean_Kuf; Lit_q_mu];
             e_fmean_mean_t ← adjoint tf e_fmean_mean;
             s ← add tf e_fmean_mean e_fmean_mean_t;
             e_related_to_mean ← add tf s e_mean_mean;
             Ok (fmean, e_related_to_mean)
       end);
    fvar ←
      (if full_output_cov then
         tr ← trace tf Li_eKuffu_Lit;
         d ← sub tf eKff tr;
         c ← column tf d;
         t ← tile_columns tf c num_func;
         t1 ← diag tf t;
         e ← einsum tf "nij,dji->nd" [Li_eKuffu_Lit; cov];
         t2 ← diag tf e;
         s ← add tf t1 t2;
         t3 ← einsum tf "ig,nij,jh->ngh" [q_mu; Li_eKuffu_Lit; q_mu];
         s ← add tf s t3;
         t4 ← outer tf fmean;
         s ← sub tf s t4;
         add tf s e_related_to_mean
       else
         tr ← trace tf Li_eKuffu_Lit;
         d ← sub tf eKff tr;
         c ← column tf d;
         t2 ← einsum tf "nij,dji->nd" [Li_eKuffu_Lit; cov];
         s ← add tf c t2;
         t3 ← einsum tf "ig,nij,jg->ng" [q_mu; Li_eKuffu_Lit; q_mu];
         s ← add tf s t3;
         t4 ← square tf fmean;
         s ← sub tf s t4;
         dp ← diag_part tf e_related_to_mean;
         add tf s dp);
    Ok (fmean, fvar).

(** A backend none of whose operations raises. *)
Record total : Prop := {
  tot_shape0 : forall x, returns (shape0 tf x);
  tot_unstack2 : forall x, returns (unstack2 tf x);
  tot_band_part_lower : forall x, returns (band_part_lower tf x);
  tot_transpose : forall x, returns (transpose tf x);
  tot_adjoint : forall x, returns (adjoint tf x);
  tot_expectation1 : forall p a, returns (expectation1 tf p a);
  tot_expectation2 : forall p a b, returns (expectation2 tf p a b);
  tot_Kuu : forall z k, returns (Kuu tf z k);
  tot_cholesky : forall x, returns (cholesky tf x);
  tot_triangular_solve : forall x y l a, returns (triangular_solve tf x y l a);
  tot_tile_front : forall x n, returns (tile_front tf x n);
  tot_matmul : forall x y a b, returns (matmul tf x y a b);
  tot_zeros3 : forall a b c, returns (zeros3 tf a b c);
  tot_reshape : forall x s, returns (reshape tf x s);
  tot_einsum : forall e xs, returns (einsum tf e xs);
  tot_trace : forall x, returns (trace tf x);
  tot_column : forall x, returns (column tf x);
  tot_tile_columns : forall x n, returns (tile_columns tf x n);
  tot_diag : forall x, returns (diag tf x);
  tot_diag_part : forall x, returns (diag_part tf x);
  tot_outer : forall x, returns (outer tf x);
  tot_square : forall x, returns (square tf x);
  tot_add : forall x y, returns (add tf x y);
  tot_sub : forall x y, returns (sub tf x y)
}.

End WithBackend.

Arguments TF : clear implicits.
Arguments Gaussian : clear implicits.

End Conditionals.

(** ** modeopt/dynamics/conditionals.py: [base_covariance_conditional],
    read at the level of tensor shapes *)

Module Shapes.

Abbreviation shape := (list nat).

(** An entry of a shape specification of [tf.debugging.assert_shapes]: a
    leading [...] is recorded by the flag, the remaining entries are
    symbols. *)
Record shape_spec : Type := {
  ellipsis : bool;
  symbols : list string
}.

Abbreviation env := (list (string * nat)).

Fixpoint env_lookup (e : env) (s : string) : option nat :=
  match e with
  | [] => None
  | (k, v) :: e' => if String.eqb k s then Some v else env_lookup e' s
  end.

(** Bind each symbol to its size, or compare with the size it is already
    bound to. *)
Fixpoint match_dims (e : env) (dims : list nat) (syms : list string)
  : option env :=
  match dims, syms with
  | [], [] => Some e
  | d :: dims', s :: syms' =>
      match env_lookup e s with
      | Some d' => if Nat.eqb d d' then match_dims e dims' syms' else None
      | None => match_dims ((s, d) :: e) dims' syms'
      end
  | _, _ => None
  end.

Definition check_shape (e : env) (sh : shape) (sp : shape_spec)
  : option env :=
  let n := length (symbols sp) in
  if ellipsis sp then
    if Nat.leb n (length sh)
    then match_dims e (drop (length sh - n) sh) (symbols sp)
    else None
  else match_dims e sh (symbols sp).

Fixpoint check_shapes (e : env) (cs : list (shape * shape_spec))
  : option env :=
  match cs with
  | [] => Some e
  | (sh, sp) :: cs' =>
      match check_shape e sh sp with
      | Some e' => check_shapes e' cs'
      | None => None
      end
  end.

(** [tf.debugging.assert_shapes(shapes, message=...)] *)
Definition assert_shapes (cs : list (shape * shape_spec)) : result unit :=
  match check_shapes [] cs with
  | Some _ => Ok tt
  | None => Raise ValueError
  end.

(** [tf.shape(x)[-k]], [k] at least 1 *)
Definition dim_from_end (x : shape) (k : nat) : result nat :=
  if Nat.leb k (length x)
  then match x !! (length x - k)%nat with
       | Some d => Ok d
       | None => Raise InvalidArgumentError
       end
  else Raise InvalidArgumentError.

(** [tf.transpose(x, perm)] *)
Definition transpose (x : shape) (perm : list nat) : result shape :=
  if Nat.eqb (length perm) (length x)
     && forallb (fun i => Nat.ltb i (length x)) perm
     && bool_decide (NoDup perm)
  then Ok (omap (fun i => x !! i) perm)
  else Raise InvalidArgumentError.

(** NumPy broadcasting of two shapes, on the reversed shapes *)
Fixpoint broadcast_rev (a b : list nat) : option (list nat) :=
  match a, b with
  | [], _ => Some b
  | _, [] => Some a
  | x :: a', y :: b' =>
      match broadcast_rev a' b' with
      | Some r =>
          if Nat.eqb x y then Some (x :: r)
          else if Nat.eqb x 1 then Some (y :: r)
          else if Nat.eqb y 1 then Some (x :: r)
          else None
      | None => None
      end
  end.

Definition broadcast (a b : shape) : result shape :=
  match broadcast_rev (rev a) (rev b) with
  | Some r => Ok (rev r)
  | None => Raise InvalidArgumentError
  end.

(** [tf.broadcast_to(x, target)] *)
Definition broadcast_to (x target : shape) : result shape :=
  r ← broadcast x target;
  if bool_decide (r = target) then Ok target else Raise InvalidArgumentError.

(** Split a shape of rank at least 2 into batch dimensions, rows and
    columns. *)
Definition split_matrix (x : shape) : result (shape * nat * nat) :=
  r ← dim_from_end x 2;
  c ← dim_from_end x 1;
  Ok (take (length x - 2) x, r, c).

(** [tf.linalg.triangular_solve(matrix, rhs, lower=True)] *)
Definition triangular_solve (matrix rhs : shape) : result shape :=
  '(bm, m1, m2) ← split_matrix matrix;
  '(br, r, c) ← split_matrix rhs;
  if Nat.eqb m1 m2 && Nat.eqb m2 r
  then b ← broadcast bm br; Ok (b ++ [r; c])
  else Raise InvalidArgumentError.

(** [tf.linalg.matmul(a, b, transpose_a=True)] *)
Definition matmul_ta (a b : shape) : result shape :=
  '(ba, m, n1) ← split_matrix a;
  '(bb, m', n2) ← split_matrix b;
  if Nat.eqb m m'
  then bc ← broadcast ba bb; Ok (bc ++ [n1; n2])
  else Raise InvalidArgumentError.

(** [tf.expand_dims(x, -3)] *)
Definition expand_dims_m3 (x : shape) : result shape :=
  if Nat.leb 2 (length x)
  then Ok (take (length x - 2) x ++ 1%nat :: drop (length x - 2) x)
  else Raise InvalidArgumentError.

(** [tf.expand_dims(tf.transpose(q), 2)] for a matrix [q] *)
Definition transposed_column (q : shape) : result shape :=
  match q with
  | [m; r] => Ok [r; m; 1%nat]
  | _ => Raise InvalidArgumentError
  end.

(** [tf.linalg.band_part(x, -1, 0)] *)
Definition band_part (x : shape) : result shape :=
  if Nat.leb 2 (length x) then Ok x else Raise InvalidArgumentError.

(** The permutation that brings the leading dimensions of a [Kmn] of
    rank [K] to the front: [range(1, K - 1)], then [0], then [K - 1]. *)
Definition perm_leading (K : nat) : list nat :=
  seq 1 (K - 2) ++ [0%nat] ++ [(K - 1)%nat].

Definition spec_MN1 := {| ellipsis := true; symbols := ["M"; "N1"]%string |}.
Definition spec_MN2 := {| ellipsis := true; symbols := ["M"; "N2"]%string |}.
Definition spec_MM := {| ellipsis := false; symbols := ["M"; "M"]%string |}.
Definition spec_N1N2 := {| ellipsis := true; symbols := ["N1"; "N2"]%string |}.
Definition spec_MR := {| ellipsis := false; symbols := ["M"; "R"]%string |}.
Definition spec_RMM := {| ellipsis := false; symbols := ["R"; "M"; "M"]%string |}.

(** The list [shape_constraints] for the transposed [Km1], [Km2]. *)
Definition shape_constraints (Km1 Km2 Lm K12 f : shape)
           (q_sqrt : option shape) : list (shape * shape_spec) :=
  [ (Km1, spec_MN1); (Km2, spec_MN2); (Lm, spec_MM); (K12, spec_N1N2);
    (f, spec_MR) ] ++
  match q_sqrt with
  | Some q => [ (q, if Nat.eqb (length q) 2 then spec_MR else spec_RMM) ]
  | None => []
  end.

(** [base_covariance_conditional(Km1, Km2, Lm, K12, f, q_sqrt=, white=)]:
    the shape of [fcov], or the error raised on the way. *)
Definition base_covariance_conditional (Km1 Km2 Lm K12 f : shape)
           (q_sqrt : option shape) (white : bool) : result shape :=
  num_func ← dim_from_end f 1;
  N1 ← dim_from_end Km1 1;
  N2 ← dim_from_end Km2 1;
  M ← dim_from_end f 2;
  let K1 := length Km1 in
  let K2 := length Km2 in
  Km1 ← transpose Km1 (perm_leading K1);
  Km2 ← transpose Km2 (perm_leading K2);
  _ ← assert_shapes (shape_constraints Km1 Km2 Lm K12 f q_sqrt);
  let leading_dims := take (length Km1 - 2) Km1 in
  Lm ← broadcast_to Lm (leading_dims ++ Lm);
  A1 ← triangular_solve Lm Km1;
  A2 ← triangular_solve Lm Km2;
  A1tA2 ← matmul_ta A1 A2;
  fcov ← broadcast K12 A1tA2;
  let cov_shape := leading_dims ++ [num_func; N1; N2] in
  fcov ← expand_dims_m3 fcov;
  fcov ← broadcast_to fcov cov_shape;
  match q_sqrt with
  | None => Ok fcov
  | Some q_sqrt =>
      '(LTA1, LTA2) ←
        (if Nat.eqb (length q_sqrt) 2 then
           c ← transposed_column q_sqrt;
           LTA1 ← broadcast A1 c;
           LTA2 ← broadcast A2 c;
           Ok (LTA1, LTA2)
         else if Nat.eqb (length q_sqrt) 3 then
           L ← band_part q_sqrt;
           L ← broadcast_to L (leading_dims ++ L);
           let shape1 := leading_dims ++ [num_func; M; N1] in
           let shape2 := leading_dims ++ [num_func; M; N2] in
           A1e ← expand_dims_m3 A1;
           A1_tiled ← broadcast_to A1e shape1;
           A2e ← expand_dims_m3 A2;
           A2_tiled ← broadcast_to A2e shape2;
           LTA1 ← matmul_ta L A1_tiled;
           LTA2 ← matmul_ta L A2_tiled;
           Ok (LTA1, LTA2)
         else Raise ValueError);
      p ← matmul_ta LTA1 LTA2;
      broadcast fcov p
  end.

(** The shapes agree on [M], [N1], [N2] and [R]; [Km1] and [Km2] in the
    representation the check looks at, leading dimensions free. *)
Definition shapes_agree (Km1 Km2 Lm K12 f : shape) (q_sqrt : option shape)
  : Prop :=
  exists (M N1 N2 R : nat) (b1 b2 b12 : shape),
    Km1 = b1 ++ [M; N1] /\ Km2 = b2 ++ [M; N2] /\ Lm = [M; M] /\
    K12 = b12 ++ [N1; N2] /\ f = [M; R] /\
    match q_sqrt with
    | None => True
    | Some q => q = [M; R] \/ q = [R; M; M]
    end.

End Shapes.

(** ** Module namespaces *)

Module Names.

(** A module's global namespace, as the list of the names it binds. *)
Definition lookup_name (G : list string) (name : string) : result unit :=
  if bool_decide (name ∈ G) then Ok tt else Raise NameError.

(** The names bound at module level in explorative.py: its imports, the
    alias [tfd], the two type aliases, its two functions and two classes. *)
Definition explorative_globals : list string :=
  [ "typing"; "dataclass"; "Callable"; "gpf"; "ttf"; "tf"; "tfp";
    "GPDynamics"; "expected_quadratic_costs"; "quadratic_cost_fn";
    "VariationalPolicy"; "VariationalGaussianPolicy"; "DeterministicPolicy";
    "rollout_policy_in_dynamics"; "TrajectoryOptimiser"; "axes"; "Batch";
    "default_float"; "tfd"; "StateDim"; "ControlDim"; "binary_entropy";
    "entropy_approx"; "ExplorativeTrajectoryOptimiserTrainingSpec";
    "ExplorativeTrajectoryOptimiser" ]%string.

(** The names bound at module level in conditionals.py. *)
Definition conditionals_globals : list string :=
  [ "Optional"; "tf"; "covariances"; "mean_functions"; "default_float";
    "default_jitter"; "expectation"; "InducingVariables"; "Kernel";
    "Gaussian"; "FakeInducingPoints"; "uncertain_conditional";
    "svgp_covariance_conditional"; "covariance_conditional";
    "base_covariance_conditional"; "base_svgp_conditional";
    "base_conditional_split" ]%string.

End Names.

(** ** modeopt/trajectory_optimisers/explorative.py: the entropy helpers *)

Module Entropy.
Import Names.

Section WithNumeric.
(** [T] stands for a tensor of floats. *)
Context {T : Type}.

(** The arithmetic of TensorFlow and NumPy the two helpers use. *)
Record Numeric : Type := {
  tf_log : T -> result T;
  tf_exp : T -> result T;
  tf_sqrt : T -> result T;
  neg : T -> result T;
  mul : T -> T -> result T;
  div : T -> T -> result T;
  plus : T -> T -> result T;
  minus : T -> T -> result T;
  square : T -> result T;
  (** [1 - x] and [2 * x] *)
  one_minus : T -> result T;
  twice : T -> result T;
  (** [np.sqrt(math.pi * np.log(2.0) / 2.0)] as a constant tensor *)
  sqrt_pi_log2_half : result T
}.

Variable num : Numeric.

(** [binary_entropy(probs)] *)
Definition binary_entropy (G : list string) (probs : T) : result T :=
  a ← neg num probs;
  _ ← lookup_name G "tf";
  l ← tf_log num probs;
  left ← mul num a l;
  b ← one_minus num probs;
  _ ← lookup_name G "tf";
  b' ← one_minus num probs;
  l' ← tf_log num b';
  right ← mul num b l';
  minus num left right.

(** [entropy_approx(h_means, h_vars, mode_probs)] *)
Definition entropy_approx (G : list string) (h_means h_vars mode_probs : T)
  : result T :=
  _ ← lookup_name G "tf";
  _ ← lookup_name G "np";
  _ ← lookup_name G "math";
  _ ← lookup_name G "np";
  C ← sqrt_pi_log2_half num;
  _ ← lookup_name G "default_float";
  _ ← lookup_name G "tf";
  m2 ← square num h_means;
  nm2 ← neg num m2;
  v2 ← square num h_vars;
  C2 ← square num C;
  s ← plus num v2 C2;
  d ← twice num s;
  q ← div num nm2 d;
  e ← tf_exp num q;
  param_entropy ← mul num C e;
  _ ← lookup_name G "tf";
  v2' ← square num h_vars;
  C2' ← square num C;
  s' ← plus num v2' C2';
  r ← tf_sqrt num s';
  param_entropy ← div num param_entropy r;
  _ ← lookup_name G "binary_entropy";
  model_entropy ← binary_entropy G mode_probs;
  minus num model_entropy param_entropy.

End WithNumeric.

Arguments Numeric : clear implicits.

End Entropy.

(** ** modeopt/dynamics/conditionals.py: [base_conditional_split] *)

Module Split.
Import Names.

Section WithTensor.
Context {T : Type}.

(** The signature of a [base_conditional_with_lm(Kmn, Kmn2, Lm, Knn, f=,
    full_cov=, q_sqrt=, white=)]. *)
Definition WithLm : Type :=
  T -> T -> T -> T -> T -> bool -> option T -> bool -> result (T * T).

(** What a name of the namespace is bound to, when something callable
    that way is bound to it. *)
Definition bound_callable (G : list string)
           (callables : string -> option WithLm) (name : string)
  : result WithLm :=
  _ ← lookup_name G name;
  match callables name with
  | Some g => Ok g
  | None => Raise TypeError
  end.

(** [base_conditional_split(Km1, Km2, Kmm, Knn, f, full_cov=, q_sqrt=,
    white=)]; [cholesky] is [tf.linalg.cholesky]. *)
Definition base_conditional_split (G : list string)
           (callables : string -> option WithLm)
           (cholesky : T -> result T)
           (Km1 Km2 Kmm Knn f : T) (full_cov : bool) (q_sqrt : option T)
           (white : bool) : result (T * T) :=
  _ ← lookup_name G "tf";
  Lm ← cholesky Kmm;
  base_conditional_with_lm ← bound_callable G callables "base_conditional_with_lm";
  base_conditional_with_lm Km1 Km2 Lm Knn f full_cov q_sqrt white.

End WithTensor.

End Split.

(** ** modeopt/dynamics/conditionals.py: [covariance_conditional] and
    [svgp_covariance_conditional], read at the level of tensor shapes *)

Module CovarianceShapes.
Import Shapes.

(** [kernel(X, X2)] for a stationary GPflow kernel: inputs [..., N, D] and
    [..., N2, D] give [..., N, ..., N2]. *)
Definition kernel (X X2 : shape) : result shape :=
  '(bx, n, d) ← split_matrix X;
  '(bx2, n2, d2) ← split_matrix X2;
  if Nat.eqb d d2 then Ok (bx ++ [n] ++ bx2 ++ [n2])
  else Raise InvalidArgumentError.

(** [tf.linalg.cholesky]: the last two dimensions are square. *)
Definition cholesky (x : shape) : result shape :=
  '(_, r, c) ← split_matrix x;
  if Nat.eqb r c then Ok x else Raise InvalidArgumentError.

(** [covariance_conditional(X1, X2, kernel, inducing_variable, f, q_sqrt=,
    white=)]; [Z] is [inducing_variable.Z]. *)
Definition covariance_conditional (X1 X2 Z f : shape)
           (q_sqrt : option shape) (white : bool) : result shape :=
  K12 ← kernel X1 X2;
  Kmm ← kernel Z Z;
  Lm ← cholesky Kmm;
  Km1 ← kernel Z X1;
  Km2 ← kernel Z X2;
  base_covariance_conditional Km1 Km2 Lm K12 f q_sqrt white.

(** The shapes of an SVGP: inducing points, [q_mu], [q_sqrt], and the
    flag [whiten]. *)
Record SVGP : Type := {
  inducing_Z : shape;
  q_mu : shape;
  q_sqrt : shape;
  whiten : bool
}.

(** [svgp_covariance_conditional(X1, X2, svgp)] *)
Definition svgp_covariance_conditional (X1 X2 : shape) (svgp : SVGP)
  : result shape :=
  covariance_conditional X1 X2 (inducing_Z svgp) (q_mu svgp)
    (Some (q_sqrt svgp)) (whiten svgp).

End CovarianceShapes.

(** ** Contracts of the collaborators *)

Module Contracts.
Import Rollouts.

(** A one-step transition over states of dimension [d]: from one state
    belief it returns one next-state belief of the same dimension. *)
Definition one_step (d : nat) (dynamics : Dynamics) : Prop :=
  forall (m v : row) (control_mean : tensor2) (control_var : option tensor2),
    length m = d -> length v = d ->
    exists m' v',
      dynamics [m] control_mean [v] control_var = Ok ([m'], [v']) /\
      length m' = d /\ length v' = d.

(** The start variance is omitted, or is one row of dimension [d]. *)
Definition start_var_ok (d : nat) (start_state_var : option tensor2) : Prop :=
  match start_state_var with
  | None => True
  | Some x => exists v, x = [v] /\ length v = d
  end.

(** The policy answers at every step of its horizon. *)
Definition answers (policy : StepPolicy) : Prop :=
  forall t, (t < num_time_steps policy)%nat -> returns (at_step policy t).

End Contracts.

(** ** Concrete objects *)

Module Samples.
Import Rollouts Trajectories Vars Optimisers Optimise.

(** A transition that moves every state coordinate by one and keeps the
    variance. *)
Definition shift : Dynamics :=
  fun state_mean _ state_var _ => Ok (map (map Z.succ) state_mean, state_var).

(** A two-step policy over one control dimension. *)
Definition two_steps : StepPolicy :=
  {| num_time_steps := 2;
     at_step := fun t => Ok ([[Z.of_nat t]], Some [[0]]) |}.

Definition sample_policy : Policy :=
  {| steps := two_steps;
     whole := Ok ([[0]; [1]], Some [[0]; [0]]);
     entropy := Ok 1;
     variational_dist := Ok ([[0]; [1]], [[0]; [0]]) |}.

(** A policy whose entropy is not implemented. *)
Definition abstract_policy : Policy :=
  {| steps := two_steps;
     whole := Ok ([[0]; [1]], Some [[0]; [0]]);
     entropy := Raise NotImplementedError;
     variational_dist := Ok ([[0]; [1]], [[0]; [0]]) |}.

Definition sample_dynamics : GPDynamics :=
  {| transition := shift;
     mode_variational_expectation := fun _ _ _ _ => Ok 2 |}.

(** Running costs 3 and 4, terminal cost 5. *)
Definition sample_costs : @CostEvaluator unit :=
  fun _ _ _ _ _ => Ok ([3; 4], 5).

Definition sample_optimiser : @TrajectoryOptimiser unit :=
  {| policy := sample_policy;
     dynamics := sample_dynamics;
     cost_fn := tt;
     terminal_cost_fn := tt |}.

(** The namespace of variational.py with [expected_costs] bound too. *)
Definition repaired_globals : gmap string (@global_value unit) :=
  <["expected_costs" := Evaluator sample_costs]>
    (variational_globals sample_costs).

(** A trajectory of three controls. *)
Definition three_controls : BaseTrajectory :=
  {| controls := Ok [[1]; [2]; [3]] |}.

End Samples.

Module OptimiseSamples.
Import Rollouts Vars Optimisers Optimise Samples.

(** Variables 1 and 2 belong to the policy, variable 3 to the dynamics;
    the policy module also reaches variable 3. *)
Definition sample_store : store :=
  <[1%positive := {| value := 10; trainable := true |}]>
    (<[2%positive := {| value := 20; trainable := true |}]>
       (<[3%positive := {| value := 30; trainable := true |}]> ∅)).

(** A solver that moves every coordinate by one, in three iterations. *)
Definition sample_solver : Solver :=
  fun _ x0 _ => (map (Z.add 1) x0, 3%nat).


Definition sample_variational {R} (opt : ExternalOptimizer unit R)
  : @VariationalOptimiser unit unit R :=
  {| policy_at := fun _ => sample_policy;
     dynamics_at := fun _ => sample_dynamics;
     v_cost_fn := tt;
     v_terminal_cost_fn := tt;
     policy_variables := [1; 2; 3]%positive;
     dynamics_variables := [3]%positive;
     optimiser := opt |}.


End OptimiseSamples.

Module ModeSamples.
Import MultiModal.

(** Experts are named by numbers; expert 7 is the gating network. *)
Definition two_experts : MixtureOfSVGPExperts nat :=
  {| num_experts := 2; experts_list := [0%nat; 1%nat]; gating_network := 7%nat |}.

(** An instance that carries the attribute [mosvgpe], as
    [set_desired_mode] expects of [self]. *)
Definition with_mosvgpe : world nat unit unit :=
  {| attrs := {[ "mosvgpe" := VModel two_experts ]}; stdout := [] |}.

(** A backend whose gating prediction echoes its input and whose
    likelihood echoes the target. *)
Definition sample_backend : Backend nat unit :=
  {| predict_f := fun _ x _ => Ok (x, x);
     gp_uncertain_conditional := fun m v _ _ _ => Ok (m, v);
     variational_expectations := fun _ _ _ y => Ok y;
     dynamics_call := fun _ sm _ _ _ => Ok (sm, sm) |}.

(** An instance with a gating network and desired mode 1. *)
Definition ready (out : list printed) : world nat unit unit :=
  {| attrs := <["gating_gp" := VGP 7%nat]> {[ "_desied_mode" := VInt 1 ]};
     stdout := out |}.

End ModeSamples.

Module ConditionalSamples.
Import Conditionals.

(** A backend over a one-point tensor type: every operation returns. *)
Definition unit_backend : TF unit unit unit unit :=
  {| shape0 := fun _ => Ok 1%nat;
     unstack2 := fun _ => Ok (1%nat, 1%nat);
     band_part_lower := fun _ => Ok tt;
     transpose := fun _ => Ok tt;
     adjoint := fun _ => Ok tt;
     expectation1 := fun _ _ => Ok tt;
     expectation2 := fun _ _ _ => Ok tt;
     Kuu := fun _ _ => Ok tt;
     cholesky := fun _ => Ok tt;
     triangular_solve := fun _ _ _ _ => Ok tt;
     tile_front := fun _ _ => Ok tt;
     matmul := fun _ _ _ _ => Ok tt;
     zeros3 := fun _ _ _ => Ok tt;
     is_zero_mean := fun _ => false;
     reshape := fun _ _ => Ok tt;
     einsum := fun _ _ => Ok tt;
     trace := fun _ => Ok tt;
     column := fun _ => Ok tt;
     tile_columns := fun _ _ => Ok tt;
     diag := fun _ => Ok tt;
     diag_part := fun _ => Ok tt;
     outer := fun _ => Ok tt;
     square := fun _ => Ok tt;
     add := fun _ _ => Ok tt;
     sub := fun _ _ => Ok tt |}.

(** A backend every operation of which raises. *)
Definition failing_backend : TF unit unit unit unit :=
  {| shape0 := fun _ => Raise InvalidArgumentError;
     unstack2 := fun _ => Raise InvalidArgumentError;
     band_part_lower := fun _ => Raise InvalidArgumentError;
     transpose := fun _ => Raise InvalidArgumentError;
     adjoint := fun _ => Raise InvalidArgumentError;
     expectation1 := fun _ _ => Raise InvalidArgumentError;
     expectation2 := fun _ _ _ => Raise InvalidArgumentError;
     Kuu := fun _ _ => Raise InvalidArgumentError;
     cholesky := fun _ => Raise InvalidArgumentError;
     triangular_solve := fun _ _ _ _ => Raise InvalidArgumentError;
     tile_front := fun _ _ => Raise InvalidArgumentError;
     matmul := fun _ _ _ _ => Raise InvalidArgumentError;
     zeros3 := fun _ _ _ => Raise InvalidArgumentError;
     is_zero_mean := fun _ => false;
     reshape := fun _ _ => Raise InvalidArgumentError;
     einsum := fun _ _ => Raise InvalidArgumentError;
     trace := fun _ => Raise InvalidArgumentError;
     column := fun _ => Raise InvalidArgumentError;
     tile_columns := fun _ _ => Raise InvalidArgumentError;
     diag := fun _ => Raise InvalidArgumentError;
     diag_part := fun _ => Raise InvalidArgumentError;
     outer := fun _ => Raise InvalidArgumentError;
     square := fun _ => Raise InvalidArgumentError;
     add := fun _ _ => Raise InvalidArgumentError;
     sub := fun _ _ => Raise InvalidArgumentError |}.

End ConditionalSamples.

(** ** Further contracts and concrete objects *)

Module MoreSamples.
Import Rollouts Samples.

(** A transition that fails on every input. *)
Definition broken (e : exn) : Dynamics := fun _ _ _ _ => Raise e.

(** Two dynamics agree on the inputs a rollout can feed them: at most one
    row of state mean, control mean, state variance and control variance. *)
Definition agree_on_rows (dyn1 dyn2 : Dynamics) : Prop :=
  forall sm cm sv (cv : option tensor2),
    (length sm <= 1)%nat -> (length cm <= 1)%nat -> (length sv <= 1)%nat ->
    (forall v, cv = Some v -> (length v <= 1)%nat) ->
    dyn1 sm cm sv cv = dyn2 sm cm sv cv.

(** A policy that reads its controls off a control sequence. *)
Definition reads_off (policy : StepPolicy) (control_means : tensor2)
           (control_vars : option tensor2) : Prop :=
  num_time_steps policy = length control_means /\
  forall t, (t < length control_means)%nat ->
    at_step policy t
    = Ok (row_slice control_means t,
          match control_vars with
          | Some cv => Some (row_slice cv t)
          | None => None
          end).

(** The policy that reads [[[5]; [6]; [7]]] with no variances. *)
Definition tabulated : StepPolicy :=
  {| num_time_steps := 3;
     at_step := fun t => Ok (row_slice [[5]; [6]; [7]] t, None) |}.

(** A transition defined on single rows only: several rows at once are
    refused. *)
Definition single_row_only : Dynamics :=
  fun state_mean _ state_var _ =>
    if Nat.leb (length state_mean) 1
    then Ok (map (map Z.succ) state_mean, state_var)
    else Raise InvalidArgumentError.

End MoreSamples.

Module MoreConditionalSamples.
Import Conditionals.

(** The backend [tf] with a Cholesky factorisation that raises [e], as it
    does on a matrix that is not positive definite. *)
Definition with_failing_cholesky {T Kernel Inducing MeanFn}
           (tf : TF T Kernel Inducing MeanFn) (e : exn)
  : TF T Kernel Inducing MeanFn :=
  {| shape0 := shape0 tf;
     unstack2 := unstack2 tf;
     band_part_lower := band_part_lower tf;
     transpose := transpose tf;
     adjoint := adjoint tf;
     expectation1 := expectation1 tf;
     expectation2 := expectation2 tf;
     Kuu := Kuu tf;
     cholesky := fun _ => Raise e;
     triangular_solve := triangular_solve tf;
     tile_front := tile_front tf;
     matmul := matmul tf;
     zeros3 := zeros3 tf;
     is_zero_mean := is_zero_mean tf;
     reshape := reshape tf;
     einsum := einsum tf;
     trace := trace tf;
     column := column tf;
     tile_columns := tile_columns tf;
     diag := diag tf;
     diag_part := diag_part tf;
     outer := outer tf;
     square := square tf;
     add := add tf;
     sub := sub tf |}.

End MoreConditionalSamples.

(** * Properties *)

(** ** Rollouts *)

Module RolloutFacts.
Import Rollouts Contracts.

Lemma widthb_width d x : widthb d x = true <-> width d x.
Proof.
  unfold widthb, width. rewrite forallb_forall, Forall_forall.
  split; intros H r Hr.
  - apply Nat.eqb_eq, H. by apply list_elem_of_In.
  - apply Nat.eqb_eq, H. by apply list_elem_of_In.
Qed.

Lemma concat0_row d (x : tensor2) (r : row) :
  x <> [] -> width d x -> length r = d -> concat0 x [r] = Ok (x ++ [r]).
Proof.
  intros Hne Hw Hr. destruct x as [|r0 x']; [done|].
  unfold concat0.
  assert (length r0 = d) as -> by (by inversion Hw).
  assert (widthb d (r0 :: x') = true) as -> by (by apply widthb_width).
  assert (widthb d [r] = true) as ->.
  { apply widthb_width. by repeat constructor. }
  done.
Qed.

Lemma last_rows_row d (x : tensor2) :
  x <> [] -> width d x -> exists r, last_rows x = [r] /\ length r = d.
Proof.
  intros Hne Hw. unfold last_rows.
  destruct (decide (x = [])) as [|_]; [done|].
  induction x as [|a x IH] using rev_ind; [done|].
  exists a. rewrite length_app. simpl.
  replace (length x + 1 - 1)%nat with (length x) by lia.
  rewrite drop_app_length. split; [done|].
  apply Forall_app in Hw as [_ Ha]. by inversion Ha.
Qed.

(** The state of the loop after [n] steps. *)
Definition after (d : nat) (s0 v0 : row) (n : nat)
           (acc : tensor2 * tensor2) : Prop :=
  length acc.1 = S n /\ length acc.2 = S n /\
  width d acc.1 /\ width d acc.2 /\
  acc.1 !! 0%nat = Some s0 /\ acc.2 !! 0%nat = Some v0.

Lemma for_each_after {A} d s0 v0 (ts : list A) body :
  (forall t n acc, after d s0 v0 n acc ->
     t ∈ ts -> exists acc', body t acc = Ok acc' /\ after d s0 v0 (S n) acc') ->
  forall n acc, after d s0 v0 n acc ->
    exists acc', for_each ts body acc = Ok acc' /\
                 after d s0 v0 (n + length ts) acc'.
Proof.
  induction ts as [|t ts IH]; intros Hbody n acc Hacc.
  - exists acc. simpl. by rewrite Nat.add_0_r.
  - destruct (Hbody t n acc Hacc) as (acc1 & Hb & H1); [left|].
    simpl. rewrite Hb. simpl.
    destruct (IH (fun t' n' a' Ha' Hin => Hbody t' n' a' Ha' (list_elem_of_further _ _ _ Hin))
                 (S n) acc1 H1) as (acc2 & Hf & H2).
    exists acc2. split; [done|].
    by replace (n + S (length ts))%nat with (S n + length ts)%nat by lia.
Qed.

(** One turn of either loop, once the controls are at hand. *)
Lemma step_after d dynamics s0 v0 n (sm sv cm : tensor2) cv :
  one_step d dynamics -> after d s0 v0 n (sm, sv) ->
  exists acc',
    ('(next_state_mean, next_state_var) ←
       dynamics (last_rows sm) cm (last_rows sv) cv;
     state_means' ← concat0 sm next_state_mean;
     state_vars' ← concat0 sv next_state_var;
     Ok (state_means', state_vars')) = Ok acc' /\
    after d s0 v0 (S n) acc'.
Proof.
  intros Hdyn (Hlm & Hlv & Hwm & Hwv & Hm0 & Hv0). simpl in *.
  assert (sm <> []) as Hmne by (intros ->; done).
  assert (sv <> []) as Hvne by (intros ->; done).
  destruct (last_rows_row d sm Hmne Hwm) as (rm & -> & Hrm).
  destruct (last_rows_row d sv Hvne Hwv) as (rv & -> & Hrv).
  destruct (Hdyn rm rv cm cv Hrm Hrv) as (m' & v' & -> & Hm' & Hv').
  simpl. rewrite (concat0_row d sm m' Hmne Hwm Hm'). simpl.
  rewrite (concat0_row d sv v' Hvne Hwv Hv'). simpl.
  eexists; split; [done|].
  repeat split; simpl.
  - rewrite length_app. simpl. lia.
  - rewrite length_app. simpl. lia.
  - apply Forall_app. split; [done|]. by repeat constructor.
  - apply Forall_app. split; [done|]. by repeat constructor.
  - rewrite lookup_app_l; [done|lia].
  - rewrite lookup_app_l; [done|lia].
Qed.

Lemma start_after d (s0 : row) sv :
  length s0 = d -> start_var_ok d sv ->
  exists v0, default_start_var [s0] sv = [v0] /\
             after d s0 v0 0 ([s0], default_start_var [s0] sv).
Proof.
  intros Hs Hsv. destruct sv as [x|]; simpl in *.
  - destruct Hsv as (v & -> & Hv). exists v. split; [done|].
    repeat split; simpl; by repeat constructor.
  - exists (replicate (length s0) 0). split; [done|].
    repeat split; simpl; repeat constructor; by rewrite ?length_replicate.
Qed.

(** Both rollouts return, with one entry more than there are steps. *)
Lemma rollouts_return
        (d : nat) (dynamics : Dynamics) (s0 : row)
        (start_state_var : option tensor2) :
  length s0 = d -> one_step d dynamics -> start_var_ok d start_state_var ->
  (forall control_means control_vars,
      exists state_means state_vars,
        rollout_controls_in_dynamics dynamics [s0] control_means
          start_state_var control_vars = Ok (state_means, state_vars) /\
        length state_means = S (length control_means) /\
        length state_vars = S (length control_means) /\
        state_means !! 0%nat = Some s0 /\
        state_vars !! 0%nat = default_start_var [s0] start_state_var !! 0%nat) /\
  (forall policy,
      answers policy ->
      exists state_means state_vars,
        rollout_policy_in_dynamics policy dynamics [s0] start_state_var
          = Ok (state_means, state_vars) /\
        length state_means = S (num_time_steps policy) /\
        length state_vars = S (num_time_steps policy) /\
        state_means !! 0%nat = Some s0 /\
        state_vars !! 0%nat = default_start_var [s0] start_state_var !! 0%nat).
Proof.
  intros Hs Hdyn Hsv.
  destruct (start_after d s0 start_state_var Hs Hsv) as (v0 & Hv0 & H0).
  split.
  - intros cm cv. unfold rollout_controls_in_dynamics.
    match goal with
    | |- context [for_each ?ts ?body _] =>
        destruct (for_each_after d s0 v0 ts body) with (n := 0%nat)
          (acc := ([s0], default_start_var [s0] start_state_var))
          as (acc & Hrun & Hacc); [|exact H0|]
    end.
    + intros t n [sm sv] Ha _. by apply step_after.
    + rewrite Hrun. destruct acc as [ms vs].
      destruct Hacc as (Hlm & Hlv & _ & _ & Hm0 & Hvs0). simpl in *.
      unfold range in *. rewrite length_seq in *.
      exists ms, vs. rewrite Hv0. by repeat split.
  - intros policy Hpol. unfold rollout_policy_in_dynamics.
    match goal with
    | |- context [for_each ?ts ?body _] =>
        destruct (for_each_after d s0 v0 ts body) with (n := 0%nat)
          (acc := ([s0], default_start_var [s0] start_state_var))
          as (acc & Hrun & Hacc); [|exact H0|]
    end.
    + intros t n [sm sv] Ha Hin.
      apply elem_of_seq in Hin.
      destruct (Hpol t) as ([cm cv] & ->); [lia|]. simpl.
      by apply step_after.
    + rewrite Hrun. destruct acc as [ms vs].
      destruct Hacc as (Hlm & Hlv & _ & _ & Hm0 & Hvs0). simpl in *.
      unfold range in *. rewrite length_seq in *.
      exists ms, vs. rewrite Hv0. by repeat split.
Qed.

(** C3. For every horizon H - the length of the control sequence, or the
    number of time steps of the policy - a rollout from one start-state
    belief through a one-step transition returns a sequence of state means
    and a sequence of state variances with exactly H + 1 entries each; the
    first mean is the start state, the first variance the start variance
    (a row of zeros when it was omitted). *)
Theorem rollout_length_invariant
        (d : nat) (dynamics : Dynamics) (s0 : row)
        (start_state_var : option tensor2) :
  length s0 = d -> one_step d dynamics -> start_var_ok d start_state_var ->
  (forall control_means control_vars,
      exists state_means state_vars,
        rollout_controls_in_dynamics dynamics [s0] control_means
          start_state_var control_vars = Ok (state_means, state_vars) /\
        length state_means = S (length control_means) /\
        length state_vars = S (length control_means) /\
        state_means !! 0%nat = Some s0 /\
        state_vars !! 0%nat = default_start_var [s0] start_state_var !! 0%nat) /\
  (forall policy,
      answers policy ->
      exists state_means state_vars,
        rollout_policy_in_dynamics policy dynamics [s0] start_state_var
          = Ok (state_means, state_vars) /\
        length state_means = S (num_time_steps policy) /\
        length state_vars = S (num_time_steps policy) /\
        state_means !! 0%nat = Some s0 /\
        state_vars !! 0%nat = default_start_var [s0] start_state_var !! 0%nat).
Proof. apply rollouts_return. Qed.

Lemma shift_one_step d : one_step d Samples.shift.
Proof.
  intros m v cm cv Hm Hv. exists (map Z.succ m), v.
  unfold Samples.shift. simpl. by rewrite length_map.
Qed.

Lemma rollout_length_invariant_witness :
  (exists state_means state_vars,
      rollout_controls_in_dynamics Samples.shift [[1; 2]] [[5]; [6]; [7]]
        None None = Ok (state_means, state_vars) /\
      length state_means = 4%nat /\ length state_vars = 4%nat /\
      state_means !! 0%nat = Some [1; 2] /\
      state_vars !! 0%nat = Some [0; 0]) /\
  (exists state_means state_vars,
      rollout_policy_in_dynamics Samples.two_steps Samples.shift [[1; 2]]
        None = Ok (state_means, state_vars) /\
      length state_means = 3%nat /\ length state_vars = 3%nat /\
      state_means !! 0%nat = Some [1; 2] /\
      state_vars !! 0%nat = Some [0; 0]).
Proof.
  destruct (rollout_length_invariant 2 Samples.shift [1; 2] None eq_refl
              (shift_one_step 2) I) as [Hc Hp].
  split.
  - exact (Hc [[5]; [6]; [7]] None).
  - apply (Hp Samples.two_steps). intros t _. eexists. reflexivity.
Defined.

End RolloutFacts.

(** ** Trajectory objects *)

Module TrajectoryFacts.
Import Trajectories Samples.

(** C7, as the code has it. A call of a trajectory object ignores the
    timestep index: at every index it returns what the call without
    argument returns, the full control sequence - the bare controls by
    default, the pair [(controls, None)] when [variance] is set. *)
Theorem call_ignores_timestep (self : BaseTrajectory) (t : Z) (variance : bool) :
  __call__ self (Some t) variance = __call__ self None variance /\
  __call__ self None false = Controls <$> controls self /\
  __call__ self None true = (fun c => ControlsAndVar c None) <$> controls self.
Proof.
  unfold __call__. repeat split; destruct (controls self); reflexivity.
Qed.

(** C7 fails as stated: called at index 0, a trajectory of three controls
    hands back all three controls, with either value of [variance], and
    not the pair of step 0. *)
Lemma call_at_index_is_not_step_pair :
  __call__ three_controls (Some 0) false = Ok (Controls [[1]; [2]; [3]]) /\
  __call__ three_controls (Some 0) true
    = Ok (ControlsAndVar [[1]; [2]; [3]] None) /\
  ~ (exists variance v,
        __call__ three_controls (Some 0) variance = Ok v /\
        is_step_pair [[1]; [2]; [3]] 0 v).
Proof.
  repeat split; [reflexivity..|].
  intros (variance & v & Hcall & var & ->).
  destruct variance; discriminate.
Qed.

End TrajectoryFacts.

(** ** The variational objective *)

Module ElboFacts.
Import Rollouts Contracts Vars Optimisers Samples.

Section WithCosts.
Context {CostFn : Type}.
Implicit Types (G : gmap string (@global_value CostFn))
         (self : @TrajectoryOptimiser CostFn).

Lemma training_loss_negates k G self s sv c :
  build_training_loss k G self s sv c tt = Z.opp <$> elbo k G self s sv.
Proof.
  unfold build_training_loss. destruct c; by destruct (elbo k G self s sv).
Qed.

Lemma variational_globals_expected_costs f :
  variational_globals (CostFn := CostFn) f !! "expected_costs" = None.
Proof. vm_compute. reflexivity. Qed.

Lemma variational_globals_quadratic f :
  variational_globals (CostFn := CostFn) f !! "expected_quadratic_costs"
  = Some (Evaluator f).
Proof. vm_compute. reflexivity. Qed.

(** C1, as the code has it. With entropy [e], running costs [R],
    terminal cost [T] and mode expectation [m]: the plain elbo is written
    as [- T - sum R - e] (evaluating it needs the name [expected_costs]
    bound); the mode variant computes [- m - T - sum R + e], the mode
    term subtracted and the entropy added; the training loss is the
    negation of the elbo of the class at hand. *)
Theorem elbo_as_written G self s sv e sm svs f R T :
  entropy (policy self) = Ok e ->
  rollout_policy_in_dynamics (steps (policy self))
    (transition (dynamics self)) s sv = Ok (sm, svs) ->
  f (cost_fn self) (terminal_cost_fn self) sm svs (policy self) = Ok (R, T) ->
  (G !! "expected_costs" = Some (Evaluator f) ->
   elbo Variational G self s sv = Ok (spec_elbo T R e)) /\
  (G !! "expected_quadratic_costs" = Some (Evaluator f) ->
   forall cm cv m,
     whole (policy self) = Ok (cm, cv) ->
     mode_variational_expectation (dynamics self)
       (but_last_rows sm) cm (but_last_rows svs) cv = Ok m ->
     elbo ModeVariational G self s sv = Ok (- m - T - reduce_sum R + e)) /\
  (forall k c,
     build_training_loss k G self s sv c tt = Z.opp <$> elbo k G self s sv).
Proof.
  intros He Hr Hf. split; [|split].
  - intros HG. unfold elbo, variational_elbo, resolve.
    rewrite He. unfold mbind at 1, result_bind at 1.
    rewrite Hr. unfold mbind at 1, result_bind at 1.
    rewrite HG. unfold mbind at 1, result_bind at 1.
    rewrite Hf. reflexivity.
  - intros HG cm cv m Hw Hm. unfold elbo, mode_variational_elbo, resolve.
    rewrite He. unfold mbind at 1, result_bind at 1.
    rewrite Hr. unfold mbind at 1, result_bind at 1.
    rewrite HG. unfold mbind at 1, result_bind at 1.
    rewrite Hf. unfold mbind at 1, result_bind at 1.
    rewrite Hw. unfold mbind at 1, result_bind at 1.
    rewrite Hm. reflexivity.
  - intros k c. apply training_loss_negates.
Qed.

Lemma unbound_name_error G self s sv e sm svs :
  G !! "expected_costs" = None ->
  entropy (policy self) = Ok e ->
  rollout_policy_in_dynamics (steps (policy self))
    (transition (dynamics self)) s sv = Ok (sm, svs) ->
  elbo Variational G self s sv = Raise NameError.
Proof.
  intros HG He Hr. unfold elbo, variational_elbo, resolve.
  rewrite He. unfold mbind at 1, result_bind at 1.
  rewrite Hr. unfold mbind at 1, result_bind at 1.
  rewrite HG. reflexivity.
Qed.

Lemma unbound_raises G self s sv :
  G !! "expected_costs" = None ->
  raises (elbo Variational G self s sv).
Proof.
  intros HG. unfold elbo, variational_elbo, resolve. rewrite HG.
  destruct (entropy (policy self)) as [e|x]; [|by exists x].
  unfold mbind at 1, result_bind at 1.
  destruct (rollout_policy_in_dynamics _ _ _ _) as [[sm svs]|x];
    [|by exists x].
  by exists NameError.
Qed.

(** C5. In the namespace of variational.py the plain elbo never returns,
    and neither does the training loss built on it; with a policy and a
    dynamics that honour their contracts (the entropy is returned, the
    policy answers at each step, the transition is one-step) the
    exception is the [NameError] of the unbound name [expected_costs]. *)
Theorem plain_elbo_raises_name_error
        (d : nat) (expected_quadratic_costs : CostEvaluator) self
        (s0 : row) (sv : option tensor2) :
  returns (entropy (policy self)) ->
  answers (steps (policy self)) ->
  one_step d (transition (dynamics self)) ->
  length s0 = d -> start_var_ok d sv ->
  let G := variational_globals expected_quadratic_costs in
  elbo Variational G self [s0] sv = Raise NameError /\
  (forall c, build_training_loss Variational G self [s0] sv c tt
             = Raise NameError) /\
  (forall self' s' sv' c,
      raises (elbo Variational G self' s' sv') /\
      raises (build_training_loss Variational G self' s' sv' c tt)).
Proof.
  intros [e He] Hpol Hdyn Hs Hsv G.
  destruct (RolloutFacts.rollouts_return d _ s0 sv Hs Hdyn Hsv)
    as [_ Hroll].
  destruct (Hroll _ Hpol) as (ms & vs & Hr & _).
  pose proof (variational_globals_expected_costs expected_quadratic_costs)
    as HG.
  fold G in HG. clearbody G.
  assert (elbo Variational G self [s0] sv = Raise NameError) as Helbo.
  { by apply (unbound_name_error G self [s0] sv e ms vs). }
  split; [exact Helbo|]. split.
  - intros c. rewrite training_loss_negates, Helbo. reflexivity.
  - intros self' s' sv' c.
    destruct (unbound_raises G self' s' sv' HG) as [x Hx].
    split; [by exists x|].
    exists x. rewrite training_loss_negates, Hx. reflexivity.
Qed.

End WithCosts.

(** C1 fails as stated for the mode variant: with entropy 1, running costs
    3 and 4, terminal cost 5 and mode expectation 2 the code returns -13,
    the stated formula gives -11. *)
Lemma mode_elbo_differs_from_stated :
  entropy sample_policy = Ok 1 /\
  sample_costs tt tt [[0]; [1]; [2]] [[0]; [0]; [0]] sample_policy
    = Ok ([3; 4], 5) /\
  mode_variational_expectation sample_dynamics [[0]; [1]] [[0]; [1]]
    [[0]; [0]] (Some [[0]; [0]]) = Ok 2 /\
  elbo ModeVariational (variational_globals sample_costs) sample_optimiser
    [[0]] None = Ok (-13) /\
  spec_mode_elbo 5 [3; 4] 1 2 = -11 /\
  elbo ModeVariational (variational_globals sample_costs) sample_optimiser
    [[0]] None <> Ok (spec_mode_elbo 5 [3; 4] 1 2).
Proof.
  repeat split; try (vm_compute; reflexivity). vm_compute. discriminate.
Qed.

Lemma plain_elbo_raises_name_error_witness :
  elbo Variational (variational_globals sample_costs) sample_optimiser
    [[0]] None = Raise NameError /\
  build_training_loss Variational (variational_globals sample_costs)
    sample_optimiser [[0]] None true tt = Raise NameError.
Proof.
  destruct (plain_elbo_raises_name_error 1 sample_costs sample_optimiser
              [0] None) as (H1 & H2 & _).
  - eexists. reflexivity.
  - intros t _. eexists. reflexivity.
  - apply RolloutFacts.shift_one_step.
  - reflexivity.
  - exact I.
  - split; [exact H1 | exact (H2 true)].
Defined.

Lemma repaired_globals_expected_costs :
  repaired_globals !! "expected_costs" = Some (Evaluator sample_costs).
Proof. vm_compute. reflexivity. Qed.

Lemma repaired_globals_quadratic :
  repaired_globals !! "expected_quadratic_costs" = Some (Evaluator sample_costs).
Proof. vm_compute. reflexivity. Qed.

Lemma elbo_as_written_witness :
  elbo Variational repaired_globals sample_optimiser [[0]] None
    = Ok (spec_elbo 5 [3; 4] 1) /\
  elbo ModeVariational repaired_globals sample_optimiser [[0]] None
    = Ok (- 2 - 5 - reduce_sum [3; 4] + 1) /\
  build_training_loss ModeVariational repaired_globals sample_optimiser
    [[0]] None true tt
    = Z.opp <$> elbo ModeVariational repaired_globals sample_optimiser
                  [[0]] None.
Proof.
  destruct (elbo_as_written repaired_globals sample_optimiser [[0]] None
              1 [[0]; [1]; [2]] [[0]; [0]; [0]] sample_costs [3; 4] 5
              eq_refl eq_refl eq_refl) as (H1 & H2 & H3).
  split; [exact (H1 repaired_globals_expected_costs)|]. split.
  - exact (H2 repaired_globals_quadratic [[0]; [1]] (Some [[0]; [0]]) 2
              eq_refl eq_refl).
  - exact (H3 ModeVariational true).
Defined.

End ElboFacts.

(** ** Freezing the dynamics *)

Module FreezeFacts.
Import Rollouts Vars Optimisers Optimise Samples OptimiseSamples.

Lemma value_of_alter_flag flag u (st : store) v :
  value_of (alter (set_flag flag) u st) v = value_of st v.
Proof.
  unfold value_of. destruct (decide (u = v)) as [->|Hne].
  - rewrite lookup_alter_eq. by destruct (st !! v).
  - by rewrite lookup_alter_ne.
Qed.

Lemma set_trainable_value vs flag (st : store) v :
  value_of (set_trainable vs flag st) v = value_of st v.
Proof.
  induction vs as [|u vs IH]; [done|].
  simpl. by rewrite value_of_alter_flag.
Qed.

Lemma set_trainable_frozen vs (st : store) v :
  v ∈ vs -> is_trainable (set_trainable vs false st) v = false.
Proof.
  unfold is_trainable. induction vs as [|u vs IH]; intros Hin.
  - by apply elem_of_nil in Hin.
  - simpl. destruct (decide (u = v)) as [->|Hne].
    + rewrite lookup_alter_eq. by destruct (set_trainable vs false st !! v).
    + rewrite lookup_alter_ne by done. apply IH.
      apply elem_of_cons in Hin as [->|]; done.
Qed.





Section WithCosts.
Context {CostFn Constraint : Type}.




End WithCosts.


End FreezeFacts.

(** ** The mode dynamics wrapper *)

Module ModeFacts.
Import MultiModal ModeSamples.

Section WithGP.
Context {GP Nominal Optimizer : Type}.
Implicit Types (w : world GP Nominal Optimizer) (be : Backend GP Nominal).

Lemma bind_run {A B} (m : M GP Nominal Optimizer A)
      (f : A -> M GP Nominal Optimizer B) w :
  bind m f w = match m w with
               | (Ok a, w') => f a w'
               | (Raise e, w') => (Raise e, w')
               end.
Proof. reflexivity. Qed.

Lemma set_desired_mode_no_mosvgpe w d :
  attrs w !! "mosvgpe" = None ->
  set_desired_mode d w = (Raise AttributeError, w).
Proof.
  intros H. unfold set_desired_mode, bind, getattr. by rewrite H.
Qed.

Lemma init_no_mosvgpe w (m : MixtureOfSVGPExperts GP) d (n : Nominal) sd cd
      (o : Optimizer) k l :
  attrs w !! "mosvgpe" = None ->
  __init__ m d n sd cd o k l w
  = (Raise AttributeError,
     {| attrs := <["trainable_model" := VModel m]> (attrs w);
        stdout := stdout w |}).
Proof.
  intros H. unfold __init__.
  rewrite bind_run. unfold setattr at 1.
  rewrite bind_run, set_desired_mode_no_mosvgpe; [done|].
  cbn [attrs]. by rewrite lookup_insert_ne.
Qed.

Lemma call_world be sm cm sv cv w : (call be sm cm sv cv w).2 = w.
Proof. unfold call. by repeat case_match. Qed.

Lemma predict_eq be sm cm sv cv w :
  uncertain_predict_gating be sm cm sv cv w
  = ((uncertain_predict_gating be sm cm sv cv
        {| attrs := attrs w; stdout := [] |}).1, w).
Proof.
  unfold uncertain_predict_gating, bind, lift, getattr, as_gp, ret, raise.
  destruct (concat1 sm cm) as [im|e]; [|done].
  destruct sv as [sv|], cv as [cv|]; cbn [attrs].
  all: try destruct (concat1 sv cv) as [iv|e]; [|done..].
  all: destruct (attrs w !! "gating_gp") as [[]|]; done.
Qed.

Lemma predict_world be sm cm sv cv w :
  (uncertain_predict_gating be sm cm sv cv w).2 = w.
Proof. by rewrite predict_eq. Qed.

(** What [mode_variational_expectation] returns is a function of the
    attributes, and it leaves the attributes alone. *)
Lemma mve_two be sm cm sv cv w w' :
  attrs w' = attrs w ->
  (mode_variational_expectation be sm cm sv cv w').1
  = (mode_variational_expectation be sm cm sv cv w).1 /\
  attrs (mode_variational_expectation be sm cm sv cv w).2 = attrs w.
Proof.
  intros H. unfold mode_variational_expectation.
  rewrite (bind_run _ _ w), (bind_run _ _ w').
  rewrite (predict_eq be sm cm sv cv w), (predict_eq be sm cm sv cv w'), H.
  destruct (uncertain_predict_gating be sm cm sv cv _).1 as [[gm gv]|e];
    [|done].
  unfold desired_mode, bind, lift, getattr, print, as_gp, as_int, ret, raise.
  cbn [attrs stdout]. rewrite H.
  destruct (attrs w !! "_desied_mode") as [[z1|m1|g1|d1|o1]|];
    cbn [attrs stdout fst snd]; try done.
  destruct (attrs w !! "gating_gp") as [[z2|m2|g|d2|o2]|];
    cbn [attrs stdout fst snd]; try done.
  by destruct (variational_expectations be g _ _ _).
Qed.

Lemma mve_attrs be sm cm sv cv w :
  attrs (mode_variational_expectation be sm cm sv cv w).2 = attrs w.
Proof. by apply (mve_two be sm cm sv cv w w). Qed.

Lemma mve_result be sm cm sv cv w w' :
  attrs w' = attrs w ->
  (mode_variational_expectation be sm cm sv cv w').1
  = (mode_variational_expectation be sm cm sv cv w).1.
Proof. intros H. by apply mve_two. Qed.

Lemma reachable_no_mosvgpe be w :
  reachable be w -> attrs w !! "mosvgpe" = None.
Proof.
  induction 1 as [out|w m d n sd cd o k l _ IH|w d _ IH|w sm cm sv cv _ IH
                 |w sm cm sv cv _ IH|w sm cm sv cv _ IH].
  - apply lookup_empty.
  - rewrite init_no_mosvgpe by done. cbn [snd attrs].
    by rewrite lookup_insert_ne.
  - by rewrite set_desired_mode_no_mosvgpe.
  - by rewrite call_world.
  - by rewrite predict_world.
  - by rewrite mve_attrs.
Qed.

(** C4. Constructing a [ModeOptDynamics] raises [AttributeError] whatever
    the arguments: [__init__] stores the model under [trainable_model] and
    [set_desired_mode] then reads [self.mosvgpe], which no method assigns.
    So no instance is ever handed back, and on every instance a program can
    reach - a fresh one, or one a method has run on - both [__init__] and
    [set_desired_mode] raise [AttributeError]. *)
Theorem construction_always_raises :
  (forall (m : MixtureOfSVGPExperts GP) d (n : Nominal) sd cd (o : Optimizer)
          k l out,
      construct m d n sd cd o k l out = Raise AttributeError) /\
  (forall be w (m : MixtureOfSVGPExperts GP) d (n : Nominal) sd cd
          (o : Optimizer) k l,
      reachable be w ->
      (__init__ m d n sd cd o k l w).1 = Raise AttributeError) /\
  (forall be w d,
      reachable be w -> (set_desired_mode d w).1 = Raise AttributeError).
Proof.
  split; [|split].
  - intros. unfold construct. by rewrite init_no_mosvgpe.
  - intros be w m d n sd cd o k l Hw.
    by rewrite init_no_mosvgpe by (by eapply reachable_no_mosvgpe).
  - intros be w d Hw.
    by rewrite set_desired_mode_no_mosvgpe by (by eapply reachable_no_mosvgpe).
Qed.

(** C9. [mode_variational_expectation] leaves the attributes of the
    instance as they were (it only appends to the standard output), and
    what it returns - the scalar, or the exception - is the same on every
    instance with these attributes: a second call with the same arguments
    returns what the first returned. *)
Theorem mode_variational_expectation_repeatable be sm cm sv cv w :
  let first := mode_variational_expectation be sm cm sv cv w in
  attrs first.2 = attrs w /\
  (mode_variational_expectation be sm cm sv cv first.2).1 = first.1 /\
  (forall w', attrs w' = attrs w ->
              (mode_variational_expectation be sm cm sv cv w').1 = first.1).
Proof.
  simpl. split; [apply mve_attrs|]. split.
  - apply mve_result, mve_attrs.
  - intros w' H. by apply mve_result.
Qed.

(** The upper bound is checked. *)
Lemma set_desired_mode_rejects_large w (m : MixtureOfSVGPExperts GP) d :
  attrs w !! "mosvgpe" = Some (VModel m) -> num_experts m <= d ->
  set_desired_mode d w = (Raise AssertionError, w).
Proof.
  intros H Hd. unfold set_desired_mode, bind, getattr, as_model, ret, raise.
  rewrite H. destruct (Z.ltb_spec d (num_experts m)); [lia|done].
Qed.



End WithGP.

(** The assertion by itself has no lower bound. On an object that carries
    [mosvgpe] - none of the methods above produces one - the index -1
    passes it, is stored as the desired mode, and selects the last
    expert. *)
Lemma set_desired_mode_accepts_negative :
  (set_desired_mode (-1) with_mosvgpe).1 = Ok tt /\
  attrs (set_desired_mode (-1) with_mosvgpe).2 !! "_desied_mode"
  = Some (VInt (-1)) /\
  attrs (set_desired_mode (-1) with_mosvgpe).2 !! "_desired_mode_dynamics"
  = Some (VDynamics {| svgp := 1%nat; nominal_dynamics := None |}).
Proof. repeat split; vm_compute; reflexivity. Qed.


Lemma construction_always_raises_witness :
  construct two_experts 0 tt 2 1 tt 5 "./" [] = Raise AttributeError /\
  (set_desired_mode 0 (fresh (GP := nat) (Nominal := unit)
                         (Optimizer := unit) [])).1 = Raise AttributeError.
Proof.
  destruct (@construction_always_raises nat unit unit) as (H1 & _ & H3).
  split.
  - exact (H1 two_experts 0 tt 2 1 tt 5 "./"%string []).
  - exact (H3 sample_backend (fresh []) 0 (reach_fresh sample_backend [])).
Defined.

Lemma mode_variational_expectation_repeatable_witness :
  (mode_variational_expectation sample_backend [[1]] [[2]] None None
     (ready [PStr "earlier output"])).1
  = (mode_variational_expectation sample_backend [[1]] [[2]] None None
       (ready [])).1.
Proof.
  exact (proj2 (proj2 (mode_variational_expectation_repeatable
                         sample_backend [[1]] [[2]] None None (ready [])))
           (ready [PStr "earlier output"]) eq_refl).
Defined.

End ModeFacts.

(** ** The uncertain conditional *)

Module ConditionalFacts.
Import Conditionals ConditionalSamples.

Lemma bind_returns {A B} (m : result A) (k : A -> result B) :
  returns m -> (forall a, returns (k a)) -> returns (m ≫= k).
Proof. intros [a ->] Hk. apply Hk. Qed.

Lemma returns_ok {A} (a : A) : returns (Ok a).
Proof. by exists a. Qed.

Create HintDb totality.
#[local] Hint Resolve returns_ok tot_shape0 tot_unstack2 tot_band_part_lower
  tot_transpose tot_adjoint tot_expectation1 tot_expectation2 tot_Kuu
  tot_cholesky tot_triangular_solve tot_tile_front tot_matmul tot_zeros3
  tot_reshape tot_einsum tot_trace tot_column tot_tile_columns tot_diag
  tot_diag_part tot_outer tot_square tot_add tot_sub : totality.

Ltac proceeds :=
  repeat first
    [ solve [eauto with totality]
    | apply bind_returns; [| intros ?]
    | match goal with
      | |- returns (if ?b then _ else _) => destruct b
      | |- returns (match ?x with _ => _ end) => destruct x
      end ].

Section WithBackend.
Context {T Kernel Inducing MeanFn : Type}.
Variable tf : TF T Kernel Inducing MeanFn.

Lemma full_cov_raises Xnew_mu Xnew_var z k q_mu q_sqrt mf foc white :
  uncertain_conditional tf Xnew_mu Xnew_var z k q_mu q_sqrt mf foc true white
  = Raise NotImplementedError.
Proof. reflexivity. Qed.

Lemma no_full_cov_proceeds Xnew_mu Xnew_var z k q_mu q_sqrt mf foc white :
  total tf ->
  returns (uncertain_conditional tf Xnew_mu Xnew_var z k q_mu q_sqrt mf foc
             false white).
Proof.
  intros Htot. unfold uncertain_conditional. proceeds.
Qed.

(** C6. With [full_cov=True] the uncertain conditional raises
    [NotImplementedError] whatever the backend does - no operation is
    called before the guard. With [full_cov=False] and a backend whose
    operations return, it returns a mean and a variance on the diagonal
    path and on the full-output-covariance path alike; so, over such a
    backend, it raises [NotImplementedError] exactly when [full_cov] is
    set. *)
Theorem uncertain_conditional_full_cov_guard
        Xnew_mu Xnew_var z k q_mu q_sqrt mf (foc white : bool) :
  uncertain_conditional tf Xnew_mu Xnew_var z k q_mu q_sqrt mf foc true white
  = Raise NotImplementedError /\
  (total tf ->
   returns (uncertain_conditional tf Xnew_mu Xnew_var z k q_mu q_sqrt mf
              true false white) /\
   returns (uncertain_conditional tf Xnew_mu Xnew_var z k q_mu q_sqrt mf
              false false white) /\
   forall full_cov,
     uncertain_conditional tf Xnew_mu Xnew_var z k q_mu q_sqrt mf foc
       full_cov white = Raise NotImplementedError <-> full_cov = true).
Proof.
  split; [reflexivity|]. intros Htot.
  split; [by apply no_full_cov_proceeds|].
  split; [by apply no_full_cov_proceeds|].
  intros [|]; split; try done.
  intros H.
  destruct (no_full_cov_proceeds Xnew_mu Xnew_var z k q_mu q_sqrt mf foc white
              Htot) as [r Hr].
  congruence.
Qed.

End WithBackend.

Lemma unit_backend_total : total unit_backend.
Proof. split; intros; by eexists. Qed.

Lemma uncertain_conditional_full_cov_guard_witness :
  uncertain_conditional failing_backend tt tt tt tt tt tt None false true false
  = Raise NotImplementedError /\
  returns (uncertain_conditional unit_backend tt tt tt tt tt tt (Some tt)
             true false false) /\
  returns (uncertain_conditional unit_backend tt tt tt tt tt tt (Some tt)
             false false false).
Proof.
  split.
  - exact (proj1 (uncertain_conditional_full_cov_guard failing_backend
                    tt tt tt tt tt tt None false false)).
  - destruct (proj2 (uncertain_conditional_full_cov_guard unit_backend
                       tt tt tt tt tt tt (Some tt) false false)
                unit_backend_total) as (H1 & H2 & _).
    split; [exact H1 | exact H2].
Defined.

End ConditionalFacts.

(** ** The covariance conditional, shapes *)

Module ShapeFacts.
Import Shapes.

Lemma tail2 (sh : shape) :
  (2 <= length sh)%nat -> exists b a c, sh = b ++ [a; c].
Proof.
  intros H. exists (take (length sh - 2) sh).
  pose proof (take_drop (length sh - 2) sh) as Htd.
  destruct (drop (length sh - 2) sh) as [|a [|c [|]]] eqn:Hd.
  - apply (f_equal length) in Hd. rewrite length_drop in Hd. simpl in Hd. lia.
  - apply (f_equal length) in Hd. rewrite length_drop in Hd. simpl in Hd. lia.
  - exists a, c. by rewrite Htd.
  - apply (f_equal length) in Hd. rewrite length_drop in Hd. simpl in Hd. lia.
Qed.

Lemma drop_tail2 (b : shape) a c :
  drop (length (b ++ [a; c]) - 2) (b ++ [a; c]) = [a; c].
Proof.
  rewrite length_app. simpl.
  replace (length b + 2 - 2)%nat with (length b) by lia.
  by rewrite drop_app_length.
Qed.

Lemma take_tail2 (b : shape) a c :
  take (length (b ++ [a; c]) - 2) (b ++ [a; c]) = b.
Proof.
  rewrite length_app. simpl.
  replace (length b + 2 - 2)%nat with (length b) by lia.
  by rewrite take_app_length.
Qed.

Lemma check_ellipsis2 e (sh : shape) s1 s2 e' :
  check_shape e sh {| ellipsis := true; symbols := [s1; s2] |} = Some e' ->
  exists b a c, sh = b ++ [a; c] /\ match_dims e [a; c] [s1; s2] = Some e'.
Proof.
  unfold check_shape. cbn [ellipsis symbols length].
  destruct (Nat.leb_spec 2 (length sh)) as [Hle|]; [|done].
  destruct (tail2 sh Hle) as (b & a & c & ->).
  rewrite drop_tail2. intros H. by exists b, a, c.
Qed.

Lemma check_ellipsis2_app e (b : shape) a c s1 s2 :
  check_shape e (b ++ [a; c]) {| ellipsis := true; symbols := [s1; s2] |}
  = match_dims e [a; c] [s1; s2].
Proof.
  unfold check_shape. cbn [ellipsis symbols length].
  destruct (Nat.leb_spec 2 (length (b ++ [a; c]))) as [Hle|Hlt].
  - by rewrite drop_tail2.
  - rewrite length_app in Hlt. simpl in Hlt. lia.
Qed.

Ltac eqb_cases :=
  repeat match goal with
    | H : context [Nat.eqb ?x ?y] |- _ =>
        destruct (Nat.eqb_spec x y); [subst|discriminate H]
    end.

Ltac settle H := simpl in H; eqb_cases; try discriminate H.

(** The check passes only on shapes that agree. *)
Lemma check_sound (Km1 Km2 Lm K12 f : shape) q e :
  check_shapes [] (shape_constraints Km1 Km2 Lm K12 f q) = Some e ->
  shapes_agree Km1 Km2 Lm K12 f q.
Proof.
  unfold shape_constraints. simpl.
  destruct (check_shape [] Km1 spec_MN1) as [e1|] eqn:E1; [|done].
  apply check_ellipsis2 in E1 as (b1 & M & N1 & -> & E1).
  settle E1. injection E1 as <-.
  destruct (check_shape _ Km2 spec_MN2) as [e2|] eqn:E2; [|done].
  apply check_ellipsis2 in E2 as (b2 & M' & N2 & -> & E2).
  settle E2. injection E2 as <-.
  destruct (check_shape _ Lm spec_MM) as [e3|] eqn:E3; [|done].
  unfold check_shape in E3.
  destruct Lm as [|x [|y [|]]]; settle E3. injection E3 as <-.
  destruct (check_shape _ K12 spec_N1N2) as [e4|] eqn:E4; [|done].
  apply check_ellipsis2 in E4 as (b12 & n1 & n2 & -> & E4).
  settle E4. injection E4 as <-.
  destruct (check_shape _ f spec_MR) as [e5|] eqn:E5; [|done].
  unfold check_shape in E5.
  destruct f as [|x [|R [|]]]; settle E5. injection E5 as <-.
  intros Hq. unfold shapes_agree.
  eexists _, _, _, _, b1, b2, b12.
  do 5 (split; [reflexivity|]).
  destruct q as [q|]; [|done]. simpl in Hq.
  destruct (check_shape _ q _) as [e6|] eqn:E6; [|done].
  unfold check_shape in E6.
  destruct q as [|x [|z [|u [|]]]]; settle E6;
    first [by left | by right].
Qed.

(** The check passes on shapes that agree, whatever their leading
    dimensions. *)
Lemma check_exact e (sh : shape) syms :
  check_shape e sh {| ellipsis := false; symbols := syms |}
  = match_dims e sh syms.
Proof. reflexivity. Qed.

Lemma check_complete (Km1 Km2 Lm K12 f : shape) q :
  shapes_agree Km1 Km2 Lm K12 f q ->
  assert_shapes (shape_constraints Km1 Km2 Lm K12 f q) = Ok tt.
Proof.
  intros (M & N1 & N2 & R & b1 & b2 & b12 & -> & -> & -> & -> & -> & Hq).
  unfold assert_shapes, shape_constraints.
  unfold spec_MN1, spec_MN2, spec_N1N2, spec_MM, spec_MR, spec_RMM.
  destruct q as [q|]; [destruct Hq as [-> | ->]|].
  all: repeat first
         [ rewrite check_ellipsis2_app
         | rewrite check_exact
         | rewrite Nat.eqb_refl
         | progress simpl ].
  all: try reflexivity.
Qed.

Lemma dim_from_end_at (b : shape) (t : shape) d k :
  length (d :: t) = k -> dim_from_end (b ++ d :: t) k = Ok d.
Proof.
  intros Hk. unfold dim_from_end.
  assert (length (b ++ d :: t) = (length b + k)%nat) as ->
    by (rewrite length_app; lia).
  replace (k <=? length b + k)%nat with true
    by (symmetry; apply Nat.leb_le; lia).
  replace (length b + k - k)%nat with (length b) by lia.
  by rewrite list_lookup_middle.
Qed.

Lemma dim_from_end_1 (b : shape) c : dim_from_end (b ++ [c]) 1 = Ok c.
Proof. by apply dim_from_end_at. Qed.

Lemma dim_from_end_cons (b : shape) m c :
  dim_from_end (m :: b ++ [c]) 1 = Ok c.
Proof. apply (dim_from_end_1 (m :: b) c). Qed.

Lemma dim_from_end_2 (b : shape) r c : dim_from_end (b ++ [r; c]) 2 = Ok r.
Proof. by apply dim_from_end_at. Qed.

Lemma dim_from_end_last2 (b : shape) r c : dim_from_end (b ++ [r; c]) 1 = Ok c.
Proof.
  replace (b ++ [r; c]) with ((b ++ [r]) ++ [c]) by (by rewrite <- app_assoc).
  apply dim_from_end_1.
Qed.

Lemma split_matrix_app (b : shape) r c :
  split_matrix (b ++ [r; c]) = Ok (b, r, c).
Proof.
  unfold split_matrix. rewrite dim_from_end_2, dim_from_end_last2. simpl.
  by rewrite take_tail2.
Qed.

Lemma broadcast_rev_same (a : list nat) : broadcast_rev a a = Some a.
Proof.
  induction a as [|x a IH]; [done|]. simpl. by rewrite IH, Nat.eqb_refl.
Qed.

Lemma broadcast_rev_prefix (s t : list nat) :
  broadcast_rev s (s ++ t) = Some (s ++ t).
Proof.
  induction s as [|x s IH]; [done|]. simpl. by rewrite IH, Nat.eqb_refl.
Qed.

Lemma broadcast_same (a : shape) : broadcast a a = Ok a.
Proof.
  unfold broadcast. by rewrite broadcast_rev_same, rev_involutive.
Qed.

Lemma broadcast_suffix (s b : shape) : broadcast s (b ++ s) = Ok (b ++ s).
Proof.
  unfold broadcast. rewrite rev_app_distr, broadcast_rev_prefix.
  by rewrite <- rev_app_distr, rev_involutive.
Qed.

Lemma broadcast_to_suffix (s b : shape) :
  broadcast_to s (b ++ s) = Ok (b ++ s).
Proof.
  unfold broadcast_to. rewrite broadcast_suffix. simpl.
  by rewrite bool_decide_eq_true_2.
Qed.

Lemma broadcast_to_same (a : shape) : broadcast_to a a = Ok a.
Proof. apply (broadcast_to_suffix a []). Qed.

Lemma rev_tail3 (b : shape) x r c :
  rev (b ++ [x; r; c]) = c :: r :: x :: rev b.
Proof. by rewrite rev_app_distr. Qed.

Lemma broadcast_rev_stretch (l : list nat) R r c :
  broadcast_rev (c :: r :: 1%nat :: l) (c :: r :: R :: l)
  = Some (c :: r :: R :: l).
Proof.
  cbn [broadcast_rev]. rewrite broadcast_rev_same, !Nat.eqb_refl.
  destruct (Nat.eqb_spec 1 R) as [<-|_]; reflexivity.
Qed.

(** A dimension of size one stretches to [R]. *)
Lemma broadcast_to_stretch (b : shape) R r c :
  broadcast_to (b ++ [1%nat; r; c]) (b ++ [R; r; c]) = Ok (b ++ [R; r; c]).
Proof.
  unfold broadcast_to, broadcast.
  rewrite !rev_tail3, broadcast_rev_stretch, <- rev_tail3, rev_involutive.
  cbn [mbind result_bind]. by rewrite bool_decide_eq_true_2.
Qed.

Lemma triangular_solve_app (b : shape) M N :
  triangular_solve (b ++ [M; M]) (b ++ [M; N]) = Ok (b ++ [M; N]).
Proof.
  unfold triangular_solve. rewrite !split_matrix_app. simpl.
  rewrite Nat.eqb_refl. simpl. by rewrite broadcast_same.
Qed.

Lemma matmul_ta_app (b : shape) M N1 N2 :
  matmul_ta (b ++ [M; N1]) (b ++ [M; N2]) = Ok (b ++ [N1; N2]).
Proof.
  unfold matmul_ta. rewrite !split_matrix_app. simpl.
  rewrite Nat.eqb_refl. by rewrite broadcast_same.
Qed.

Lemma expand_dims_m3_app (b : shape) r c :
  expand_dims_m3 (b ++ [r; c]) = Ok (b ++ [1%nat; r; c]).
Proof.
  unfold expand_dims_m3.
  destruct (Nat.leb_spec 2 (length (b ++ [r; c]))) as [_|Hlt].
  - by rewrite take_tail2, drop_tail2.
  - rewrite length_app in Hlt. simpl in Hlt. lia.
Qed.

Lemma omap_lookup_seq (pre b post : shape) :
  omap (fun i => (pre ++ b ++ post) !! i) (seq (length pre) (length b)) = b.
Proof.
  revert pre. induction b as [|x b IH]; intros pre; [done|].
  simpl. rewrite list_lookup_middle by done. f_equal.
  specialize (IH (pre ++ [x])).
  rewrite length_app in IH. simpl in IH.
  replace (length pre + 1)%nat with (S (length pre)) in IH by lia.
  by rewrite <- app_assoc in IH.
Qed.

Lemma perm_leading_length (b : shape) m n :
  perm_leading (length (m :: b ++ [n]))
  = seq 1 (length b) ++ [0%nat; S (length b)].
Proof.
  unfold perm_leading.
  replace (length (m :: b ++ [n])) with (length b + 2)%nat
    by (cbn [length]; rewrite length_app; cbn [length]; lia).
  replace (length b + 2 - 2)%nat with (length b) by lia.
  by replace (length b + 2 - 1)%nat with (S (length b)) by lia.
Qed.

(** On a [Kmn] of shape [M, ..., N] the permutation brings the leading
    dimensions to the front: [..., M, N]. *)
Lemma transpose_perm_leading (b : shape) m n :
  transpose (m :: b ++ [n]) (perm_leading (length (m :: b ++ [n])))
  = Ok (b ++ [m; n]).
Proof.
  rewrite perm_leading_length. unfold transpose.
  set (x := m :: b ++ [n]).
  set (perm := seq 1 (length b) ++ [0%nat; S (length b)]).
  assert (length x = (length b + 2)%nat) as Hx
    by (unfold x; cbn [length]; rewrite length_app; cbn [length]; lia).
  assert ((length perm =? length x)%nat = true) as ->.
  { apply Nat.eqb_eq. unfold perm.
    rewrite length_app, length_seq, Hx. cbn [length]. lia. }
  assert (forallb (fun i => (i <? length x)%nat) perm = true) as ->.
  { apply forallb_forall. intros i Hi. apply Nat.ltb_lt. rewrite Hx.
    unfold perm in Hi. apply in_app_or in Hi as [Hi|Hi].
    - apply in_seq in Hi. lia.
    - destruct Hi as [<-|[<-|[]]]; lia. }
  rewrite bool_decide_eq_true_2.
  - cbn [andb]. f_equal. unfold perm. rewrite omap_app. f_equal.
    + apply (omap_lookup_seq [m] b [n]).
    + cbn [omap list_omap]. unfold x.
      change (m :: b ++ [n]) with ([m] ++ b ++ [n]) at 2.
      rewrite app_assoc.
      rewrite (list_lookup_middle ([m] ++ b) [] n (S (length b)))
        by (rewrite length_app; cbn [length]; lia).
      reflexivity.
  - unfold perm. apply NoDup_app. split; [apply NoDup_seq|]. split.
    + intros i Hi%elem_of_seq Hin.
      apply elem_of_cons in Hin as [->|Hin]; [lia|].
      apply list_elem_of_singleton in Hin. lia.
    + apply NoDup_cons. split; [|apply NoDup_singleton].
      intros Hin%list_elem_of_singleton. lia.
Qed.

Lemma matmul_ta_app3 (b : shape) R M K N :
  matmul_ta (b ++ [R; M; K]) (b ++ [R; M; N]) = Ok (b ++ [R; K; N]).
Proof.
  pose proof (matmul_ta_app (b ++ [R]) M K N) as H.
  by rewrite <- !app_assoc in H.
Qed.

Ltac shape_steps :=
  repeat first
    [ progress cbn [mbind result_bind]
    | rewrite take_tail2
    | rewrite broadcast_to_suffix
    | rewrite triangular_solve_app
    | rewrite matmul_ta_app3
    | rewrite matmul_ta_app
    | rewrite broadcast_same
    | rewrite expand_dims_m3_app
    | rewrite broadcast_to_stretch ].

Lemma raises_bind {A B} (m : result A) (k : A -> result B) e :
  m = Raise e -> m ≫= k = Raise e.
Proof. by intros ->. Qed.

(** C10. When the shapes handed to [base_covariance_conditional] do not
    agree on the inducing count M, the query counts N1 and N2 and the output
    count R - [Km1] and [Km2] read in the representation the check looks at,
    the leading dimensions brought to the front - the call raises a shape
    error; nothing is broadcast to make them fit. Leading batch dimensions
    are not part of the check: shapes [M, ..., N1], [M, ..., N2], [M, M],
    [..., N1, N2], [M, R] with a common batch part pass it, [Lm] is broadcast
    over the batch part, and the result has shape [..., R, N1, N2], without
    [q_sqrt] and with a [q_sqrt] of shape [R, M, M]. *)
Theorem shape_mismatch_is_reported :
  (forall (Km1 Km2 Lm K12 f : shape) (q_sqrt : option shape) (white : bool),
      ~ (exists Km1' Km2',
            transpose Km1 (perm_leading (length Km1)) = Ok Km1' /\
            transpose Km2 (perm_leading (length Km2)) = Ok Km2' /\
            shapes_agree Km1' Km2' Lm K12 f q_sqrt) ->
      exists e,
        base_covariance_conditional Km1 Km2 Lm K12 f q_sqrt white = Raise e /\
        (e = ValueError \/ e = InvalidArgumentError)) /\
  (forall (M N1 N2 R : nat) (b : shape) (q_sqrt : option shape) (white : bool),
      q_sqrt = None \/ q_sqrt = Some [R; M; M] ->
      base_covariance_conditional (M :: b ++ [N1]) (M :: b ++ [N2]) [M; M]
        (b ++ [N1; N2]) [M; R] q_sqrt white = Ok (b ++ [R; N1; N2])).
Proof.
  split.
  - intros Km1 Km2 Lm K12 f q white Hno.
    unfold base_covariance_conditional.
    destruct (dim_from_end f 1) as [nf|e] eqn:E1; simpl;
      [|exists e; split; [done|];
        unfold dim_from_end in E1; repeat case_match; simplify_eq; by right].
    destruct (dim_from_end Km1 1) as [n1|e] eqn:E2; simpl;
      [|exists e; split; [done|];
        unfold dim_from_end in E2; repeat case_match; simplify_eq; by right].
    destruct (dim_from_end Km2 1) as [n2|e] eqn:E3; simpl;
      [|exists e; split; [done|];
        unfold dim_from_end in E3; repeat case_match; simplify_eq; by right].
    destruct (dim_from_end f 2) as [m|e] eqn:E4; simpl;
      [|exists e; split; [done|];
        unfold dim_from_end in E4; repeat case_match; simplify_eq; by right].
    destruct (transpose Km1 _) as [Km1'|e] eqn:E5; simpl;
      [|exists e; split; [done|];
        unfold transpose in E5; repeat case_match; simplify_eq; by right].
    destruct (transpose Km2 _) as [Km2'|e] eqn:E6; simpl;
      [|exists e; split; [done|];
        unfold transpose in E6; repeat case_match; simplify_eq; by right].
    unfold assert_shapes.
    destruct (check_shapes [] _) as [env|] eqn:E7; simpl.
    + exfalso. apply Hno. exists Km1', Km2'.
      split; [done|]. split; [done|]. by eapply check_sound.
    + exists ValueError. split; [done|]. by left.
  - intros M N1 N2 R b q white Hq.
    unfold base_covariance_conditional.
    change (dim_from_end [M; R] 1) with (Ok (A := nat) R).
    change (dim_from_end [M; R] 2) with (Ok (A := nat) M).
    repeat first
      [ progress cbn [mbind result_bind]
      | rewrite dim_from_end_cons
      | rewrite transpose_perm_leading ].
    rewrite check_complete.
    2:{ exists M, N1, N2, R, b, b, b. repeat split.
        destruct Hq as [-> | ->]; [done|by right]. }
    destruct Hq as [-> | ->].
    2:{ change (length [R; M; M] =? 2)%nat with false.
        change (length [R; M; M] =? 3)%nat with true.
        change (band_part [R; M; M]) with (Ok (A := shape) [R; M; M]).
        cbv iota. shape_steps. reflexivity. }
    shape_steps. reflexivity.
Qed.

Lemma shape_mismatch_is_reported_witness :
  (exists e,
      base_covariance_conditional [2; 4]%nat [3; 5]%nat [2; 2]%nat
        [4; 5]%nat [2; 7]%nat None false = Raise e /\
      (e = ValueError \/ e = InvalidArgumentError)) /\
  base_covariance_conditional [2; 6; 4]%nat [2; 6; 5]%nat [2; 2]%nat
    [6; 4; 5]%nat [2; 7]%nat (Some [7; 2; 2]%nat) false
  = Ok [6; 7; 4; 5]%nat.
Proof.
  destruct shape_mismatch_is_reported as [Hbad Hgood].
  split.
  - apply Hbad.
    intros (Km1' & Km2' & H1 & H2 & Hagree).
    vm_compute in H1. vm_compute in H2.
    injection H1 as <-. injection H2 as <-.
    destruct Hagree as (M & N1 & N2 & R & b1 & b2 & b12 & E1 & E2 & _).
    apply (f_equal (fun l => rev l)) in E1, E2.
    rewrite rev_app_distr in E1, E2. simpl in E1, E2.
    injection E1 as _ HM1. injection E2 as _ HM2.
    destruct (rev b1), (rev b2); simpl in *; congruence.
  - exact (Hgood 2 4 5 7 [6] (Some [7; 2; 2]) false (or_intror eq_refl))%nat.
Defined.

End ShapeFacts.

(** * Further properties of the code *)

(** ** Rollouts: how the trajectory grows *)

Module RolloutMore.
Import Rollouts Contracts Samples MoreSamples.

Lemma concat0_app (x y z : tensor2) : concat0 x y = Ok z -> z = x ++ y.
Proof.
  unfold concat0. destruct x as [|r x]; [by intros [= <-]|].
  destruct (_ && _); [by intros [= <-]|discriminate].
Qed.

Lemma for_each_ext {A S} (ts : list A) (f g : A -> S -> result S) acc :
  (forall t a, t ∈ ts -> f t a = g t a) ->
  for_each ts f acc = for_each ts g acc.
Proof.
  revert acc. induction ts as [|t ts IH]; intros acc H; [done|].
  cbn [for_each]. rewrite (H t acc) by left.
  destruct (g t acc) as [acc'|e]; [|done].
  cbn [mbind result_bind]. apply IH. intros t' a Hin. apply H. by right.
Qed.

Lemma for_each_app {A S} (ts ts' : list A) (f : A -> S -> result S) acc :
  for_each (ts ++ ts') f acc = for_each ts f acc ≫= for_each ts' f.
Proof.
  revert acc. induction ts as [|t ts IH]; intros acc; [done|].
  cbn [for_each app]. destruct (f t acc) as [acc'|e]; [|done].
  cbn [mbind result_bind]. apply IH.
Qed.

(** A loop whose every turn only appends: the start is a prefix of the
    result. *)
Lemma for_each_prefix {A} (ts : list A)
      (body : A -> tensor2 * tensor2 -> result (tensor2 * tensor2)) :
  (forall t acc acc', body t acc = Ok acc' ->
     acc.1 `prefix_of` acc'.1 /\ acc.2 `prefix_of` acc'.2) ->
  forall acc acc', for_each ts body acc = Ok acc' ->
    acc.1 `prefix_of` acc'.1 /\ acc.2 `prefix_of` acc'.2.
Proof.
  intros Hbody. induction ts as [|t ts IH]; intros acc acc' H.
  - injection H as <-. done.
  - cbn [for_each] in H. destruct (body t acc) as [acc1|e] eqn:E; [|done].
    cbn [mbind result_bind] in H.
    destruct (Hbody t acc acc1 E) as [H1 H2].
    destruct (IH acc1 acc' H) as [H3 H4].
    split; by etrans.
Qed.

(** One turn of either loop appends. *)
Lemma turn_appends (dynamics : Dynamics) (sm sv cm : tensor2) cv acc' :
  ('(next_state_mean, next_state_var) ←
     dynamics (last_rows sm) cm (last_rows sv) cv;
   state_means' ← concat0 sm next_state_mean;
   state_vars' ← concat0 sv next_state_var;
   Ok (state_means', state_vars')) = Ok acc' ->
  sm `prefix_of` acc'.1 /\ sv `prefix_of` acc'.2.
Proof.
  destruct (dynamics _ _ _ _) as [[nm nv]|e]; [|done].
  cbn [mbind result_bind].
  destruct (concat0 sm nm) as [sm'|e] eqn:Em; [|done].
  cbn [mbind result_bind].
  destruct (concat0 sv nv) as [sv'|e] eqn:Ev; [|done].
  cbn [mbind result_bind]. intros [= <-].
  apply concat0_app in Em as ->. apply concat0_app in Ev as ->.
  split; by eexists.
Qed.

(** X1. Whatever the dynamics (it may return several rows, or none) and
    whatever the start belief: when a rollout returns, the trajectory it
    returns starts with the start state and the start variance - states
    are appended, never rewritten. *)
Theorem rollout_only_appends (dynamics : Dynamics) (start_state : tensor2)
        (start_state_var : option tensor2) state_means state_vars :
  (forall control_means control_vars,
      rollout_controls_in_dynamics dynamics start_state control_means
        start_state_var control_vars = Ok (state_means, state_vars) ->
      start_state `prefix_of` state_means /\
      default_start_var start_state start_state_var `prefix_of` state_vars) /\
  (forall policy,
      rollout_policy_in_dynamics policy dynamics start_state start_state_var
        = Ok (state_means, state_vars) ->
      start_state `prefix_of` state_means /\
      default_start_var start_state start_state_var `prefix_of` state_vars).
Proof.
  split.
  - intros cm cv H. unfold rollout_controls_in_dynamics in H.
    eapply for_each_prefix in H; [exact H|].
    intros t [sm sv] acc' Hb. by eapply turn_appends.
  - intros policy H. unfold rollout_policy_in_dynamics in H.
    eapply for_each_prefix in H; [exact H|].
    intros t [sm sv] acc' Hb.
    destruct (at_step policy t) as [[cm cv]|e]; [|done].
    cbn [mbind result_bind] in Hb. by eapply turn_appends.
Qed.

Lemma rollout_only_appends_witness :
  [[1; 2]] `prefix_of` [[1; 2]; [2; 3]; [3; 4]] /\
  zeros 1 2 `prefix_of` [[0; 0]; [0; 0]; [0; 0]].
Proof.
  exact (proj2 (rollout_only_appends shift [[1; 2]] None
                  [[1; 2]; [2; 3]; [3; 4]] [[0; 0]; [0; 0]; [0; 0]])
           two_steps eq_refl).
Defined.

(** X2. A policy that reads its controls off a control sequence rolls out
    exactly as the sequence does: the two rollouts are the same function,
    results and exceptions alike. *)
Theorem rollout_policy_is_rollout_controls
        (policy : StepPolicy) (dynamics : Dynamics) (start_state : tensor2)
        (start_state_var : option tensor2) (control_means : tensor2)
        (control_vars : option tensor2) :
  reads_off policy control_means control_vars ->
  rollout_policy_in_dynamics policy dynamics start_state start_state_var
  = rollout_controls_in_dynamics dynamics start_state control_means
      start_state_var control_vars.
Proof.
  intros [Hn Hat].
  unfold rollout_policy_in_dynamics, rollout_controls_in_dynamics.
  rewrite Hn. apply for_each_ext. intros t [sm sv] Hin.
  apply elem_of_seq in Hin. rewrite Hat by lia. reflexivity.
Qed.

Lemma rollout_policy_is_rollout_controls_witness :
  rollout_policy_in_dynamics tabulated shift [[1; 2]] None
  = rollout_controls_in_dynamics shift [[1; 2]] [[5]; [6]; [7]] None None.
Proof.
  apply rollout_policy_is_rollout_controls.
  split; [reflexivity|]. intros t _. reflexivity.
Defined.

Lemma row_slice_app_l (x y : tensor2) t :
  (t < length x)%nat -> row_slice (x ++ y) t = row_slice x t.
Proof.
  intros Ht. unfold row_slice. rewrite drop_app_le by lia.
  destruct (drop t x) as [|r rest] eqn:E; [|done].
  apply (f_equal length) in E. rewrite length_drop in E. simpl in E. lia.
Qed.

(** X3. Steps do not look ahead: when the rollout of a control sequence
    extended by further controls returns, the rollout of the sequence
    itself returns too, and its trajectory is the beginning of the longer
    one. *)
Theorem rollout_longer_extends_shorter
        (dynamics : Dynamics) (start_state : tensor2)
        (start_state_var : option tensor2) (control_means more : tensor2)
        (control_vars : option tensor2) state_means' state_vars' :
  rollout_controls_in_dynamics dynamics start_state (control_means ++ more)
    start_state_var control_vars = Ok (state_means', state_vars') ->
  exists state_means state_vars,
    rollout_controls_in_dynamics dynamics start_state control_means
      start_state_var control_vars = Ok (state_means, state_vars) /\
    state_means `prefix_of` state_means' /\
    state_vars `prefix_of` state_vars'.
Proof.
  unfold rollout_controls_in_dynamics, range.
  rewrite length_app, seq_app, for_each_app.
  match goal with
  | |- for_each ?ts ?f ?a ≫= _ = _ -> _ =>
      destruct (for_each ts f a) as [[ms vs]|e] eqn:E; [|done]
  end.
  cbn [mbind result_bind]. intros H. exists ms, vs. split.
  - rewrite <- E. apply for_each_ext. intros t [sm sv] Hin.
    apply elem_of_seq in Hin. by rewrite row_slice_app_l by lia.
  - eapply for_each_prefix in H; [exact H|].
    intros t [sm sv] acc' Hb. by eapply turn_appends.
Qed.

Lemma rollout_longer_extends_shorter_witness :
  exists state_means state_vars,
    rollout_controls_in_dynamics shift [[1; 2]] [[5]] None None
      = Ok (state_means, state_vars) /\
    state_means `prefix_of` [[1; 2]; [2; 3]; [3; 4]; [4; 5]] /\
    state_vars `prefix_of` [[0; 0]; [0; 0]; [0; 0]; [0; 0]].
Proof.
  exact (rollout_longer_extends_shorter shift [[1; 2]] None [[5]]
           [[6]; [7]] None _ _ eq_refl).
Defined.

Lemma length_last_rows (x : tensor2) : (length (last_rows x) <= 1)%nat.
Proof. unfold last_rows. rewrite length_drop. lia. Qed.

Lemma length_row_slice (x : tensor2) t : (length (row_slice x t) <= 1)%nat.
Proof. unfold row_slice. rewrite length_take. lia. Qed.

(** X4. A rollout of a control sequence feeds the dynamics one row at a
    time - the last state, one control - whatever the start belief holds:
    two dynamics that agree on such inputs roll out alike. *)
Theorem rollout_feeds_single_rows
        (dyn1 dyn2 : Dynamics) (start_state control_means : tensor2)
        (start_state_var control_vars : option tensor2) :
  agree_on_rows dyn1 dyn2 ->
  rollout_controls_in_dynamics dyn1 start_state control_means
    start_state_var control_vars
  = rollout_controls_in_dynamics dyn2 start_state control_means
      start_state_var control_vars.
Proof.
  intros H. unfold rollout_controls_in_dynamics.
  apply for_each_ext. intros t [sm sv] _.
  rewrite (H (last_rows sm) (row_slice control_means t) (last_rows sv)).
  - reflexivity.
  - apply length_last_rows.
  - apply length_row_slice.
  - apply length_last_rows.
  - intros v Hv. destruct control_vars as [cv|]; [|done].
    injection Hv as <-. apply length_row_slice.
Qed.

Lemma single_row_only_agrees : agree_on_rows single_row_only shift.
Proof.
  intros sm cm sv cv Hsm _ _ _. unfold single_row_only, shift.
  by rewrite (proj2 (Nat.leb_le _ _) Hsm).
Qed.

Lemma rollout_feeds_single_rows_witness :
  rollout_controls_in_dynamics single_row_only [[1; 2]; [3; 4]] [[5]; [6]]
    None None
  = rollout_controls_in_dynamics shift [[1; 2]; [3; 4]] [[5]; [6]] None None.
Proof.
  apply rollout_feeds_single_rows, single_row_only_agrees.
Defined.

(** X5. Nothing is retried or caught: over a dynamics that raises [e] on
    every input, a rollout of at least one control raises [e]; with no
    control at all it returns the start belief without calling the
    dynamics. The same holds of a policy rollout whose policy answers at
    step 0. *)
Theorem rollout_propagates_failure
        (e : exn) (start_state : tensor2) (start_state_var : option tensor2) :
  (forall control_means control_vars,
      rollout_controls_in_dynamics (broken e) start_state control_means
        start_state_var control_vars
      = match control_means with
        | [] => Ok (start_state,
                    default_start_var start_state start_state_var)
        | _ :: _ => Raise e
        end) /\
  (forall policy,
      returns (at_step policy 0) ->
      rollout_policy_in_dynamics policy (broken e) start_state
        start_state_var
      = match num_time_steps policy with
        | O => Ok (start_state,
                   default_start_var start_state start_state_var)
        | S _ => Raise e
        end).
Proof.
  split.
  - intros [|c cm] cv; reflexivity.
  - intros policy [[cm cv] H0]. unfold rollout_policy_in_dynamics.
    destruct (num_time_steps policy) as [|n]; [reflexivity|].
    unfold range. cbn [seq for_each]. rewrite H0. reflexivity.
Qed.

Lemma rollout_propagates_failure_witness :
  rollout_policy_in_dynamics two_steps (broken ValueError) [[1; 2]] None
  = Raise ValueError.
Proof.
  apply (proj2 (rollout_propagates_failure ValueError [[1; 2]] None)
           two_steps).
  eexists. reflexivity.
Defined.

End RolloutMore.

(** ** The optimisers: what [optimise] does besides optimising *)

Module OptimiseMore.
Import Rollouts Vars Optimisers Optimise Samples OptimiseSamples.

Section WithCosts.
Context {CostFn Constraint R : Type}.

(** X6. [optimise] reads [training_spec.compile_loss_fn], a field the
    plain [VariationalTrajectoryOptimiserTrainingSpec] does not have. With
    that spec the call raises [AttributeError] before the optimizer is
    reached, for either class: no variable has changed its value, and the
    variables of the dynamics are left non-trainable. *)
Theorem optimise_with_plain_spec
        k G (self : @VariationalOptimiser CostFn Constraint R)
        start_state (c : CommonSpec) constraints (st : store) :
  let run := optimise k G self start_state
               (VariationalTrajectoryOptimiserTrainingSpec c) constraints st in
  run.1 = Raise AttributeError /\
  (forall v, value_of run.2 v = value_of st v) /\
  (forall v, v ∈ dynamics_variables self -> is_trainable run.2 v = false).
Proof.
  cbn zeta. unfold optimise. cbn [get_compile_loss_fn fst snd].
  split; [reflexivity|]. split.
  - intros v. apply FreezeFacts.set_trainable_value.
  - intros v Hv. by apply FreezeFacts.set_trainable_frozen.
Qed.



End WithCosts.

Lemma optimise_with_plain_spec_witness :
  is_trainable
    (optimise Variational (variational_globals sample_costs)
       (sample_variational (scipy sample_solver)) [[0]]
       (VariationalTrajectoryOptimiserTrainingSpec
          {| max_iterations := 100; method := "SLSQP"; spec_disp := true;
             monitor := None; manager := None |}) [] sample_store).2
    3%positive = false.
Proof.
  apply (proj2 (proj2 (optimise_with_plain_spec Variational
                         (variational_globals sample_costs)
                         (sample_variational (scipy sample_solver)) [[0]]
                         {| max_iterations := 100; method := "SLSQP";
                            spec_disp := true; monitor := None;
                            manager := None |} [] sample_store))).
  apply list_elem_of_here.
Defined.


End OptimiseMore.

(** ** Names the modules do not bind *)

Module NameFacts.
Import Names Entropy Split.

Lemma explorative_binds_tf : lookup_name explorative_globals "tf" = Ok tt.
Proof. vm_compute. reflexivity. Qed.

Lemma explorative_lacks_np :
  lookup_name explorative_globals "np" = Raise NameError.
Proof. vm_compute. reflexivity. Qed.

Lemma conditionals_binds_tf : lookup_name conditionals_globals "tf" = Ok tt.
Proof. vm_compute. reflexivity. Qed.

Lemma conditionals_lacks_with_lm :
  lookup_name conditionals_globals "base_conditional_with_lm"
  = Raise NameError.
Proof. vm_compute. reflexivity. Qed.

(** X8. explorative.py uses [np] and [math] without importing them:
    [entropy_approx] raises [NameError] on every input, before any
    arithmetic - also over arithmetic that would itself fail. *)
Theorem entropy_approx_raises_name_error {T} (num : Numeric T)
        (h_means h_vars mode_probs : T) :
  entropy_approx num explorative_globals h_means h_vars mode_probs
  = Raise NameError.
Proof.
  unfold entropy_approx.
  rewrite explorative_binds_tf. cbn [mbind result_bind].
  rewrite explorative_lacks_np. reflexivity.
Qed.

(** X9. conditionals.py never defines or imports
    [base_conditional_with_lm]: [base_conditional_split] does not return
    for any input. It raises [NameError] when the Cholesky factorisation
    returns, and what the factorisation raises otherwise. *)
Theorem base_conditional_split_never_returns {T}
        (callables : string -> option (@WithLm T)) (cholesky : T -> result T)
        (Km1 Km2 Kmm Knn f : T) (full_cov : bool) (q_sqrt : option T)
        (white : bool) :
  base_conditional_split conditionals_globals callables cholesky
    Km1 Km2 Kmm Knn f full_cov q_sqrt white
  = match cholesky Kmm with
    | Ok _ => Raise NameError
    | Raise e => Raise e
    end.
Proof.
  unfold base_conditional_split, bound_callable.
  rewrite conditionals_binds_tf. cbn [mbind result_bind].
  destruct (cholesky Kmm) as [Lm|e]; [|reflexivity].
  cbn [mbind result_bind]. rewrite conditionals_lacks_with_lm. reflexivity.
Qed.

End NameFacts.

(** ** The mode dynamics wrapper: what its methods do to an instance *)

Module ModeMore.
Import MultiModal ModeSamples.

Section WithGP.
Context {GP Nominal Optimizer : Type}.
Implicit Types (w : world GP Nominal Optimizer) (be : Backend GP Nominal).

(** All a reachable instance ever holds is [trainable_model]. *)
Lemma reachable_attrs be w (name : string) :
  reachable be w -> name <> "trainable_model" -> attrs w !! name = None.
Proof.
  intros Hw Hname.
  induction Hw as [out|w m d n sd cd o k l Hw IH|w d Hw IH|w sm cm sv cv _ IH
                  |w sm cm sv cv _ IH|w sm cm sv cv _ IH].
  - apply lookup_empty.
  - rewrite ModeFacts.init_no_mosvgpe
      by (by eapply ModeFacts.reachable_no_mosvgpe).
    cbn [snd attrs]. by rewrite lookup_insert_ne.
  - by rewrite ModeFacts.set_desired_mode_no_mosvgpe
      by (by eapply ModeFacts.reachable_no_mosvgpe).
  - by rewrite ModeFacts.call_world.
  - by rewrite ModeFacts.predict_world.
  - by rewrite ModeFacts.mve_attrs.
Qed.

Lemma predict_without_gating be sm cm sv cv w :
  attrs w !! "gating_gp" = None ->
  raises (uncertain_predict_gating be sm cm sv cv w).1.
Proof.
  intros H.
  unfold uncertain_predict_gating, bind, lift, getattr, as_gp, ret, raise.
  destruct (concat1 sm cm) as [im|e]; [|by eexists].
  destruct sv as [sv|], cv as [cv|].
  all: try (destruct (concat1 sv cv) as [iv|e]; [|by eexists]).
  all: rewrite H; by eexists.
Qed.

(** X10. Since construction fails half way, an instance a program can reach
    is of no use: the [desired_mode] property raises [AttributeError],
    [call] finds the method [_desired_mode_dynamics] in place of the
    attribute of that name - the method calls itself, so [RecursionError] -
    and neither the gating prediction nor the mode expectation returns. *)
Theorem no_method_returns be w sm cm sv cv :
  reachable be w ->
  (desired_mode w).1 = Raise AttributeError /\
  (call be sm cm sv cv w).1 = Raise RecursionError /\
  raises (uncertain_predict_gating be sm cm sv cv w).1 /\
  raises (mode_variational_expectation be sm cm sv cv w).1.
Proof.
  intros Hw.
  assert (attrs w !! "_desied_mode" = None) as Hd
    by (by apply (reachable_attrs be)).
  assert (attrs w !! "_desired_mode_dynamics" = None) as Hy
    by (by apply (reachable_attrs be)).
  assert (attrs w !! "gating_gp" = None) as Hg
    by (by apply (reachable_attrs be)).
  split; [|split; [|split]].
  - unfold desired_mode, bind, getattr. by rewrite Hd.
  - unfold call. by rewrite Hy.
  - by apply predict_without_gating.
  - destruct (predict_without_gating be sm cm sv cv w) as [e He]; [by apply Hg|].
    unfold mode_variational_expectation. rewrite ModeFacts.bind_run.
    destruct (uncertain_predict_gating be sm cm sv cv w) as [r w1].
    cbn [fst] in He. subst r. by exists e.
Qed.

(** X11. On an instance that carries [mosvgpe], an index from 0 to
    [num_experts - 1] that is within the expert list is accepted: the
    [desired_mode] property then returns it, the desired-mode dynamics
    wraps the expert at that index with no nominal dynamics, and nothing
    else on the instance changes. *)
Theorem set_then_get_desired_mode w (m : MixtureOfSVGPExperts GP) d g :
  attrs w !! "mosvgpe" = Some (VModel m) ->
  0 <= d < num_experts m ->
  experts_list m !! Z.to_nat d = Some g ->
  let run := set_desired_mode d w in
  run.1 = Ok tt /\
  (desired_mode run.2).1 = Ok d /\
  attrs run.2 !! "_desired_mode_dynamics"
  = Some (VDynamics {| svgp := g; nominal_dynamics := None |}) /\
  stdout run.2 = stdout w /\
  forall name, name <> "_desied_mode" -> name <> "_desired_mode_dynamics" ->
               attrs run.2 !! name = attrs w !! name.
Proof.
  intros Hm [Hd0 Hdn] Hg. cbn zeta.
  assert (list_index (experts_list m) d = Ok g) as Hidx.
  { unfold list_index. pose proof (lookup_lt_Some _ _ _ Hg) as Hlt.
    destruct (Z.ltb_spec d 0); [lia|].
    destruct (Z.leb_spec 0 d); [|lia].
    destruct (Z.ltb_spec d (Z.of_nat (length (experts_list m)))); [|lia].
    cbn [andb]. by rewrite Hg. }
  assert (set_desired_mode d w
          = (Ok tt,
             {| attrs := <["_desired_mode_dynamics" :=
                             VDynamics {| svgp := g; nominal_dynamics := None |}]>
                           (<["_desied_mode" := VInt d]> (attrs w));
                stdout := stdout w |})) as ->.
  { unfold set_desired_mode, bind, getattr, as_model, ret, raise, lift, setattr.
    rewrite Hm. destruct (Z.ltb_spec d (num_experts m)); [|lia].
    cbn [attrs stdout]. rewrite lookup_insert_ne by done. rewrite Hm.
    by rewrite Hidx. }
  cbn [fst snd attrs stdout]. split; [done|]. split; [|split; [|split]].
  - unfold desired_mode, bind, getattr, as_int, ret. cbn [attrs].
    rewrite lookup_insert_ne by done. by rewrite lookup_insert_eq.
  - by rewrite lookup_insert_eq.
  - done.
  - intros name H1 H2. by rewrite !lookup_insert_ne.
Qed.

(** X12. [set_desired_mode] stores the index before it looks the expert up.
    An index below [num_experts] that the expert list does not have - too
    negative, or beyond a list shorter than [num_experts] - raises
    [IndexError] and still becomes the desired mode, while the
    desired-mode dynamics stays what it was. *)
Theorem failed_set_desired_mode_sticks w (m : MixtureOfSVGPExperts GP) d :
  attrs w !! "mosvgpe" = Some (VModel m) ->
  d < num_experts m ->
  d < - Z.of_nat (length (experts_list m)) \/
  Z.of_nat (length (experts_list m)) <= d ->
  let run := set_desired_mode d w in
  run.1 = Raise IndexError /\
  (desired_mode run.2).1 = Ok d /\
  attrs run.2 !! "_desired_mode_dynamics"
  = attrs w !! "_desired_mode_dynamics".
Proof.
  intros Hm Hdn Hout. cbn zeta.
  assert (list_index (experts_list m) d = Raise IndexError) as Hidx.
  { unfold list_index.
    destruct (Z.ltb_spec d 0), (Z.leb_spec 0 (Z.of_nat (length (experts_list m)) + d)),
      (Z.leb_spec 0 d),
      (Z.ltb_spec (Z.of_nat (length (experts_list m)) + d)
                  (Z.of_nat (length (experts_list m)))),
      (Z.ltb_spec d (Z.of_nat (length (experts_list m))));
      cbn [andb]; try reflexivity; lia. }
  assert (set_desired_mode d w
          = (Raise IndexError,
             {| attrs := <["_desied_mode" := VInt d]> (attrs w);
                stdout := stdout w |})) as ->.
  { unfold set_desired_mode, bind, getattr, as_model, ret, raise, lift, setattr.
    rewrite Hm. destruct (Z.ltb_spec d (num_experts m)); [|lia].
    cbn [attrs stdout]. rewrite lookup_insert_ne by done. rewrite Hm.
    by rewrite Hidx. }
  cbn [fst snd attrs]. split; [done|]. split.
  - unfold desired_mode, bind, getattr, as_int, ret. cbn [attrs].
    by rewrite lookup_insert_eq.
  - by rewrite lookup_insert_ne.
Qed.

(** X13. An index of [num_experts] or above is refused by the assertion
    before anything is stored: the call raises [AssertionError] and the
    instance is exactly what it was. *)
Theorem large_index_is_refused w (m : MixtureOfSVGPExperts GP) d :
  attrs w !! "mosvgpe" = Some (VModel m) -> num_experts m <= d ->
  set_desired_mode d w = (Raise AssertionError, w).
Proof.
  intros H Hd. unfold set_desired_mode, bind, getattr, as_model, ret, raise.
  rewrite H. destruct (Z.ltb_spec d (num_experts m)); [lia|done].
Qed.

End WithGP.

Lemma no_method_returns_witness :
  (desired_mode (fresh (GP := nat) (Nominal := unit) (Optimizer := unit) [])).1
  = Raise AttributeError /\
  (call sample_backend [[1]] [[2]] None None
     (fresh (Optimizer := unit) [])).1 = Raise RecursionError.
Proof.
  destruct (no_method_returns sample_backend (fresh (Optimizer := unit) [])
              [[1]] [[2]] None None (reach_fresh sample_backend []))
    as (H1 & H2 & _).
  split; [exact H1 | exact H2].
Defined.

Lemma set_then_get_desired_mode_witness :
  (desired_mode (set_desired_mode 1 with_mosvgpe).2).1 = Ok 1.
Proof.
  apply (set_then_get_desired_mode with_mosvgpe two_experts 1 1%nat).
  - apply lookup_singleton_eq.
  - unfold two_experts. cbn [num_experts]. lia.
  - reflexivity.
Defined.

Lemma failed_set_desired_mode_sticks_witness :
  (set_desired_mode (-3) with_mosvgpe).1 = Raise IndexError /\
  (desired_mode (set_desired_mode (-3) with_mosvgpe).2).1 = Ok (-3).
Proof.
  destruct (failed_set_desired_mode_sticks with_mosvgpe two_experts (-3))
    as (H1 & H2 & _).
  - apply lookup_singleton_eq.
  - unfold two_experts. cbn [num_experts]. lia.
  - left. unfold two_experts. cbn [experts_list length]. lia.
  - split; [exact H1 | exact H2].
Defined.

Lemma large_index_is_refused_witness :
  set_desired_mode 2 with_mosvgpe = (Raise AssertionError, with_mosvgpe).
Proof.
  apply (large_index_is_refused with_mosvgpe two_experts 2).
  - apply lookup_singleton_eq.
  - unfold two_experts. cbn [num_experts]. lia.
Defined.

End ModeMore.

(** ** The uncertain conditional: failures *)

Module ConditionalMore.
Import Conditionals ConditionalSamples MoreConditionalSamples.

Section WithBackend.
Context {T Kernel Inducing MeanFn : Type}.
Variable tf : TF T Kernel Inducing MeanFn.

(** X14. A failed Cholesky factorisation of [Kuu] ends the conditional:
    over a backend whose other operations return, the exception of the
    factorisation is what [uncertain_conditional] raises, on the diagonal
    and the full-output-covariance path, whitened or not - there is no
    second attempt with more jitter. *)
Theorem cholesky_failure_propagates
        (e : exn) Xnew_mu Xnew_var z k q_mu q_sqrt mf
        (full_output_cov white : bool) :
  total tf ->
  uncertain_conditional (with_failing_cholesky tf e) Xnew_mu Xnew_var z k
    q_mu q_sqrt mf full_output_cov false white = Raise e.
Proof.
  intros Htot. unfold uncertain_conditional.
  cbn [with_failing_cholesky shape0 unstack2 band_part_lower expectation1
         transpose Kuu cholesky].
  destruct (tot_shape0 tf Htot Xnew_mu) as [n ->]. cbn [mbind result_bind].
  destruct (tot_unstack2 tf Htot q_mu) as [[a b] ->]. cbn [mbind result_bind].
  destruct (tot_band_part_lower tf Htot q_sqrt) as [r ->].
  cbn [mbind result_bind].
  destruct (tot_expectation1 tf Htot {| mu := Xnew_mu; cov := Xnew_var |}
              (OfKernelInducing k z)) as [p ->].
  cbn [mbind result_bind].
  destruct (tot_transpose tf Htot p) as [p' ->]. cbn [mbind result_bind].
  destruct (tot_Kuu tf Htot z k) as [K ->]. reflexivity.
Qed.

End WithBackend.

Lemma cholesky_failure_propagates_witness :
  uncertain_conditional (with_failing_cholesky unit_backend ValueError)
    tt tt tt tt tt tt None false false false = Raise ValueError.
Proof.
  apply cholesky_failure_propagates.
  apply ConditionalFacts.unit_backend_total.
Defined.

End ConditionalMore.

(** ** The covariance conditional from inputs to result, shapes *)

Module CovarianceMore.
Import Shapes CovarianceShapes ShapeFacts.

Lemma split_matrix_2 r c : split_matrix [r; c] = Ok ([], r, c).
Proof. reflexivity. Qed.

Lemma kernel_matrix n n2 d : kernel [n; d] [n2; d] = Ok [n; n2].
Proof.
  unfold kernel. rewrite !split_matrix_2. cbn [mbind result_bind].
  by rewrite Nat.eqb_refl.
Qed.

Lemma cholesky_square m : cholesky [m; m] = Ok [m; m].
Proof.
  unfold cholesky. rewrite split_matrix_2. cbn [mbind result_bind].
  by rewrite Nat.eqb_refl.
Qed.

(** [A * q] for [A] of shape [M, N] and [q] of shape [R, M, 1] *)
Lemma broadcast_diag M N R : broadcast [M; N] [R; M; 1%nat] = Ok [R; M; N].
Proof.
  unfold broadcast. cbn [rev app broadcast_rev]. rewrite Nat.eqb_refl.
  destruct (Nat.eqb_spec N 1) as [->|_]; reflexivity.
Qed.

Lemma matmul_ta_3 R M K N :
  matmul_ta [R; M; K] [R; M; N] = Ok [R; K; N].
Proof. apply (matmul_ta_app3 [] R M K N). Qed.

Lemma triangular_solve_2 M N : triangular_solve [M; M] [M; N] = Ok [M; N].
Proof. apply (triangular_solve_app [] M N). Qed.

Lemma matmul_ta_2 M N1 N2 : matmul_ta [M; N1] [M; N2] = Ok [N1; N2].
Proof. apply (matmul_ta_app [] M N1 N2). Qed.

Lemma expand_dims_m3_2 r c : expand_dims_m3 [r; c] = Ok [1%nat; r; c].
Proof. apply (expand_dims_m3_app [] r c). Qed.

Lemma broadcast_to_stretch_3 R r c :
  broadcast_to [1%nat; r; c] [R; r; c] = Ok [R; r; c].
Proof. apply (broadcast_to_stretch [] R r c). Qed.

Ltac matrix_steps :=
  repeat first
    [ progress cbn [mbind result_bind]
    | rewrite broadcast_to_same
    | rewrite triangular_solve_2
    | rewrite matmul_ta_3
    | rewrite matmul_ta_2
    | rewrite broadcast_same
    | rewrite expand_dims_m3_2
    | rewrite broadcast_to_stretch_3
    | rewrite broadcast_diag ].

(** The covariance of matrices [Km1], [Km2], without batch dimensions. *)
Lemma base_covariance_matrix M N1 N2 R (q : option shape) white :
  q = None \/ q = Some [R; M; M] \/ q = Some [M; R] ->
  base_covariance_conditional [M; N1] [M; N2] [M; M] [N1; N2] [M; R] q white
  = Ok [R; N1; N2].
Proof.
  intros Hq. unfold base_covariance_conditional.
  change (dim_from_end [M; R] 1) with (Ok (A := nat) R).
  change (dim_from_end [M; R] 2) with (Ok (A := nat) M).
  change (dim_from_end [M; N1] 1) with (Ok (A := nat) N1).
  change (dim_from_end [M; N2] 1) with (Ok (A := nat) N2).
  change (transpose [M; N1] (perm_leading (length [M; N1])))
    with (Ok (A := shape) [M; N1]).
  change (transpose [M; N2] (perm_leading (length [M; N2])))
    with (Ok (A := shape) [M; N2]).
  cbn [mbind result_bind].
  rewrite check_complete.
  2:{ exists M, N1, N2, R, [], [], []. repeat split.
      destruct Hq as [-> | [-> | ->]]; [done|by right|by left]. }
  cbn [mbind result_bind length Nat.sub take app].
  destruct Hq as [-> | [-> | ->]].
  - matrix_steps. reflexivity.
  - change (length [R; M; M] =? 2)%nat with false.
    change (length [R; M; M] =? 3)%nat with true.
    change (band_part [R; M; M]) with (Ok (A := shape) [R; M; M]).
    cbv iota. matrix_steps. reflexivity.
  - change (length [M; R] =? 2)%nat with true.
    cbv iota. cbn [transposed_column]. matrix_steps. reflexivity.
Qed.

(** X15. From inputs to result: for query sets [X1] of shape [N1, D] and
    [X2] of shape [N2, D], inducing points [M, D] and [f] of shape [M, R],
    [covariance_conditional] passes the shape check and returns a
    covariance of shape [R, N1, N2] - without [q_sqrt], with a full
    [q_sqrt] of shape [R, M, M] and with a diagonal one of shape [M, R];
    so does [svgp_covariance_conditional] for an SVGP of these shapes. *)
Theorem covariance_conditional_shape (N1 N2 D M R : nat) (white : bool) :
  (forall q, q = None \/ q = Some [R; M; M] \/ q = Some [M; R] ->
             covariance_conditional [N1; D] [N2; D] [M; D] [M; R] q white
             = Ok [R; N1; N2]) /\
  svgp_covariance_conditional [N1; D] [N2; D]
    {| inducing_Z := [M; D]; q_mu := [M; R]; q_sqrt := [R; M; M];
       whiten := white |} = Ok [R; N1; N2].
Proof.
  assert (forall q, q = None \/ q = Some [R; M; M] \/ q = Some [M; R] ->
            covariance_conditional [N1; D] [N2; D] [M; D] [M; R] q white
            = Ok [R; N1; N2]) as H.
  { intros q Hq. unfold covariance_conditional.
    rewrite !kernel_matrix. cbn [mbind result_bind].
    rewrite cholesky_square. cbn [mbind result_bind].
    by apply base_covariance_matrix. }
  split; [exact H|].
  unfold svgp_covariance_conditional. cbn [inducing_Z q_mu q_sqrt whiten].
  apply H. right. by left.
Qed.

Lemma covariance_conditional_shape_witness :
  covariance_conditional [4; 3]%nat [5; 3]%nat [2; 3]%nat [2; 7]%nat
    (Some [2; 7]%nat) false = Ok [7; 4; 5]%nat.
Proof.
  apply (proj1 (covariance_conditional_shape 4 5 3 2 7 false)).
  right. right. reflexivity.
Defined.

(** X16. A diagonal [q_sqrt] of shape [M, R] does not go with a batch: with
    shapes [M, B, N1], [M, B, N2], [M, M], [B, N1, N2], [M, R] that agree
    in every named dimension, the shape check passes and the product of
    the projection [B, M, N1] with [q_sqrt] as [R, M, 1] then fails,
    whenever [B] and [R] differ and neither is 1. *)
Theorem diagonal_q_sqrt_with_batch (M N1 N2 R B : nat) (white : bool) :
  B <> R -> B <> 1%nat -> R <> 1%nat ->
  assert_shapes
    (shape_constraints [B; M; N1] [B; M; N2] [M; M] [B; N1; N2] [M; R]
       (Some [M; R])) = Ok tt /\
  base_covariance_conditional [M; B; N1] [M; B; N2] [M; M] [B; N1; N2]
    [M; R] (Some [M; R]) white = Raise InvalidArgumentError.
Proof.
  intros HBR HB HR.
  assert (assert_shapes
            (shape_constraints [B; M; N1] [B; M; N2] [M; M] [B; N1; N2]
               [M; R] (Some [M; R])) = Ok tt) as Hcheck.
  { apply check_complete. exists M, N1, N2, R, [B], [B], [B].
    repeat split. by left. }
  split; [exact Hcheck|].
  assert (forall N, transpose [M; B; N] (perm_leading (length [M; B; N]))
                    = Ok [B; M; N]) as Htr
    by (intros N; apply (transpose_perm_leading [B] M N)).
  assert (broadcast_to [M; M] [B; M; M] = Ok [B; M; M]) as HLm
    by apply (broadcast_to_suffix [M; M] [B]).
  assert (forall N, triangular_solve [B; M; M] [B; M; N] = Ok [B; M; N])
    as Hsolve by (intros N; apply (triangular_solve_app [B] M N)).
  assert (matmul_ta [B; M; N1] [B; M; N2] = Ok [B; N1; N2]) as Hmm
    by apply (matmul_ta_app [B] M N1 N2).
  assert (expand_dims_m3 [B; N1; N2] = Ok [B; 1%nat; N1; N2]) as Hex
    by apply (expand_dims_m3_app [B] N1 N2).
  assert (broadcast_to [B; 1%nat; N1; N2] [B; R; N1; N2]
          = Ok [B; R; N1; N2]) as Hst
    by apply (broadcast_to_stretch [B] R N1 N2).
  assert (broadcast [B; M; N1] [R; M; 1%nat] = Raise InvalidArgumentError)
    as Hfail.
  { unfold broadcast. cbn [rev app broadcast_rev].
    rewrite (proj2 (Nat.eqb_neq B R) HBR), (proj2 (Nat.eqb_neq B 1) HB),
      (proj2 (Nat.eqb_neq R 1) HR).
    reflexivity. }
  unfold base_covariance_conditional.
  change (dim_from_end [M; R] 1) with (Ok (A := nat) R).
  change (dim_from_end [M; R] 2) with (Ok (A := nat) M).
  change (dim_from_end [M; B; N1] 1) with (Ok (A := nat) N1).
  change (dim_from_end [M; B; N2] 1) with (Ok (A := nat) N2).
  cbn [mbind result_bind]. rewrite !Htr. cbn [mbind result_bind].
  rewrite Hcheck. cbn [mbind result_bind length Nat.sub take app].
  change (length [M; R] =? 2)%nat with true.
  cbv iota. cbn [transposed_column].
  repeat first
    [ progress cbn [mbind result_bind]
    | rewrite HLm | rewrite Hsolve | rewrite Hmm | rewrite broadcast_same
    | rewrite Hex | rewrite Hst | rewrite Hfail ].
  reflexivity.
Qed.

Lemma diagonal_q_sqrt_with_batch_witness :
  base_covariance_conditional [2; 3; 4]%nat [2; 3; 5]%nat [2; 2]%nat
    [3; 4; 5]%nat [2; 7]%nat (Some [2; 7]%nat) false
  = Raise InvalidArgumentError.
Proof.
  apply (proj2 (diagonal_q_sqrt_with_batch 2 4 5 7 3 false
                  ltac:(discriminate) ltac:(discriminate)
                  ltac:(discriminate))).
Defined.

End CovarianceMore.
